(** * anycache: disk-backed memoisation of function results

    A shallow embedding of [anycache/main.py] and [anycache/serializers.py].

    - Python values are the inductive type [pyval]; text is a Rocq [string]
      (one [ascii] per character).
    - Exceptions are values of [exn]; a computation that may raise returns a
      [result].
    - The cache directory lives in a small file-system model ([world]):
      a finite map from paths to nodes, the space left on the device, the
      state of the user's program, and the chronological list of events.
    - The host's builtins that the code calls but does not define
      ([str], [hashlib.sha256], [pickle]) are the fields of [Builtins];
      [base64] is modelled concretely.
    - A wrapped callable runs on the state of the user's program. The
      wrappers are given twice: for callables that leave their arguments as
      they got them, and, in the module [Mutating], for callables that may
      change their arguments in place, where [write] computes the key from
      the arguments as the call left them. *)

From Stdlib Require Import ZArith NArith Lia Ascii Strings.Byte DecimalString.
From stdpp Require Import base tactics option list sorting gmap strings.

Set Default Proof Using "Type".

(** ** Values and exceptions *)

#[warnings="-register-all"] Inductive pyval :=
  | PyNone
  | PyBool (b : bool)
  | PyInt (z : Z)
  | PyStr (s : string)
  | PyList (items : list pyval)
  | PyObject (cls : string) (addr : Z).

(** [x is not None] *)
Definition is_not_None (x : pyval) : bool :=
  match x with PyNone => false | _ => true end.

Inductive exn :=
  | TypeError
  | FileNotFoundError
  | FileExistsError
  | IsADirectoryError
  | NotADirectoryError
  | OSError                    (* ENOSPC while writing *)
  | Error (cls : string).      (* any other subclass of Exception *)

Inductive result (A : Type) :=
  | Ok (a : A)
  | Raise (e : exn).
Arguments Ok {A} a.
Arguments Raise {A} e.

Abbreviation bytes := (list byte).
Abbreviation kwargs_t := (gmap string pyval).

(** ** Builtins of the host language *)

Class Builtins := {
  (** [str(x)]: the default text form of a value *)
  str : pyval → string;
  (** [hashlib.sha256(s.encode("utf-8")).hexdigest()] *)
  sha256_hexdigest : string → string;
  (** [pickle.dumps] and [pickle.loads] *)
  pickle_dumps : pyval → result bytes;
  pickle_loads : bytes → result pyval;
}.

(** ** [CacheWrapper.make_key] *)

(** [sep.join(parts)] *)
Definition join (sep : string) (parts : list string) : string :=
  String.concat sep parts.

(** The order [sorted] uses on [kwargs.items()]: tuples are compared by their
    first component; the second component would only be consulted for two
    items with the same key, which a dict never holds. *)
Definition item_le (x y : string * pyval) : Prop :=
  String.leb x.1 y.1 = true.

Global Instance item_le_dec : RelDecision item_le.
Proof. intros x y. unfold item_le. apply _. Defined.

Definition sorted (items : list (string * pyval)) : list (string * pyval) :=
  merge_sort item_le items.

Section make_key.
Context {B : Builtins}.

(** [f"{k}={v}"] *)
Definition format_item (kv : string * pyval) : string :=
  kv.1 +:+ "=" +:+ str kv.2.

Definition make_key (is_method : bool) (func_name : string)
    (args : list pyval) (kwargs : kwargs_t) : string :=
  (* Ignore the self argument of a method *)
  let args := if is_method then drop 1 args else args in
  let key_parts :=
    [ func_name;
      join "_" (str <$> args);
      join "_" (format_item <$> sorted (map_to_list kwargs)) ] in
  let string := join ":" (filter (λ kp, kp ≠ "") key_parts) in
  sha256_hexdigest string.

(** *** The key as the specification words it *)

(** Insertion of a pair into a list ordered by key. *)
Fixpoint insert_by_key (kv : string * pyval) (l : list (string * pyval))
    : list (string * pyval) :=
  match l with
  | [] => [kv]
  | kv' :: l' =>
      if String.ltb kv'.1 kv.1 then kv' :: insert_by_key kv l' else kv :: l
  end.

Definition sort_by_key (l : list (string * pyval)) : list (string * pyval) :=
  foldr insert_by_key [] l.

(** Positional arguments, each in its text form, joined with underscores;
    the first one is dropped for a bound method. *)
Definition positional_component (is_method : bool) (args : list pyval) : string :=
  match is_method, args with
  | true, _ :: rest => join "_" (str <$> rest)
  | _, _ => join "_" (str <$> args)
  end.

(** Keyword arguments as [key=value], sorted by key, joined with underscores. *)
Definition keyword_component (kwargs : kwargs_t) : string :=
  join "_" ((λ kv, kv.1 +:+ "=" +:+ str kv.2) <$> sort_by_key (map_to_list kwargs)).

(** Colon-joining where an empty component leaves no trace. *)
Definition colon (a b : string) : string :=
  match a, b with
  | "", _ => b
  | _, "" => a
  | _, _ => a +:+ ":" +:+ b
  end.

Definition make_key_reference (is_method : bool) (func_name : string)
    (args : list pyval) (kwargs : kwargs_t) : string :=
  sha256_hexdigest
    (colon func_name
       (colon (positional_component is_method args) (keyword_component kwargs))).
End make_key.

(** ** The file system and the world *)

Abbreviation path := (list string).

Inductive node :=
  | File (data : bytes)
  | Dir.

Inductive log_record :=
  | InfoLoaded (key : string)          (* "Resource {key} loaded from cache" *)
  | WarnCorrupted (exc : exn)          (* "Failed to read a corrupted file from cache: ..." *)
  | InfoSaved (key : string)           (* "Resource {key} saved to cache" *)
  | InfoWriteFailed (exc : exn).       (* "Failed to write to cache: ..." *)

Inductive event :=
  | EvCall (fname : string) (args : list pyval) (kwargs : kwargs_t)
  | EvYield (item : pyval)
  | EvMkdir (p : path)
  | EvTruncate (p : path)
  | EvWrite (p : path) (data : bytes)
  | EvUnlink (p : path)
  | EvLog (r : log_record).

Record world (U : Type) := World {
  files : gmap path node;   (* every file and directory below the root *)
  space : nat;              (* bytes still free on the device *)
  user : U;                 (* state of the program that uses the cache *)
  events : list event;      (* what happened so far, oldest first *)
}.
Arguments World {U} _ _ _ _.
Arguments files {U} _.
Arguments space {U} _.
Arguments user {U} _.
Arguments events {U} _.

(** The root is a directory; everything else is what [files] says. *)
Definition node_at (fs : gmap path node) (p : path) : option node :=
  match p with
  | [] => Some Dir
  | _ => fs !! p
  end.

Definition parent (p : path) : path := removelast p.

(** Number of times the wrapped callable was called so far. *)
Definition is_call (e : event) : bool :=
  match e with EvCall _ _ _ => true | _ => false end.

Definition invocations {U} (w : world U) : nat :=
  length (filter (λ e, is_call e = true) (events w)).

(** ** Computations: state passing with exceptions *)

Definition M (U A : Type) : Type := world U → result A * world U.

Global Instance M_ret {U} : MRet (M U) := λ A a w, (Ok a, w).
Global Instance M_bind {U} : MBind (M U) := λ A B f m w,
  match m w with
  | (Ok a, w') => f a w'
  | (Raise e, w') => (Raise e, w')
  end.

Definition raise {U A} (e : exn) : M U A := λ w, (Raise e, w).

(** A pure computation that may raise. *)
Definition lift {U A} (r : result A) : M U A := λ w, (r, w).

(** [try: body  except Exception as exc: handler(exc)] *)
Definition try_except {U A} (body : M U A) (handler : exn → M U A) : M U A :=
  λ w, match body w with
       | (Ok a, w') => (Ok a, w')
       | (Raise e, w') => handler e w'
       end.

Definition emit {U} (e : event) : M U () :=
  λ w, (Ok (), World (files w) (space w) (user w) (events w ++ [e])).

Definition log {U} (r : log_record) : M U () := emit (EvLog r).

Section filesystem.
Context {U : Type}.

(** [p.exists()] *)
Definition path_exists (p : path) : M U bool :=
  λ w, (Ok (match node_at (files w) p with Some _ => true | None => false end), w).

(** [with p.open("rb") as f: f.read()] *)
Definition read_bytes (p : path) : M U bytes :=
  λ w, match node_at (files w) p with
       | Some (File data) => (Ok data, w)
       | Some Dir => (Raise IsADirectoryError, w)
       | None => (Raise FileNotFoundError, w)
       end.

(** [p.open(mode="wb")]: creates the file or truncates it. *)
Definition open_wb (p : path) : M U () :=
  λ w, match node_at (files w) (parent p) with
       | Some Dir =>
           match node_at (files w) p with
           | Some Dir => (Raise IsADirectoryError, w)
           | Some (File old) =>
               (Ok (), World (<[p := File []]> (files w)) (space w + length old)
                         (user w) (events w ++ [EvTruncate p]))
           | None =>
               (Ok (), World (<[p := File []]> (files w)) (space w)
                         (user w) (events w ++ [EvTruncate p]))
           end
       | Some (File _) => (Raise NotADirectoryError, w)
       | None => (Raise FileNotFoundError, w)
       end.

(** [f.write(data)] on the freshly opened, empty file [p]; when the device
    fills up, what fitted stays in the file and [OSError] is raised. *)
Definition file_write (p : path) (data : bytes) : M U () :=
  λ w, if decide (length data ≤ space w) then
         (Ok (), World (<[p := File data]> (files w)) (space w - length data)
                   (user w) (events w ++ [EvWrite p data]))
       else
         (Raise OSError,
          World (<[p := File (take (space w) data)]> (files w)) 0
            (user w) (events w ++ [EvWrite p (take (space w) data)])).

(** [p.unlink()] *)
Definition unlink (p : path) : M U () :=
  λ w, match node_at (files w) p with
       | Some (File old) =>
           (Ok (), World (delete p (files w)) (space w + length old)
                     (user w) (events w ++ [EvUnlink p]))
       | Some Dir => (Raise IsADirectoryError, w)
       | None => (Raise FileNotFoundError, w)
       end.

(** [p.mkdir(parents=True, exist_ok=True)], walking down from the root;
    [pre] is the part of the path already known to be a directory. *)
Fixpoint mkdir_from (pre : path) (segs : list string) : M U () :=
  match segs with
  | [] => mret ()
  | s :: rest =>
      let q := pre ++ [s] in
      λ w, match node_at (files w) q with
           | Some (File _) =>
               (Raise (match rest with [] => FileExistsError | _ => NotADirectoryError end), w)
           | Some Dir => mkdir_from q rest w
           | None =>
               mkdir_from q rest
                 (World (<[q := Dir]> (files w)) (space w) (user w) (events w ++ [EvMkdir q]))
           end
  end.

Definition mkdir_parents_exist_ok (p : path) : M U () := mkdir_from [] p.
End filesystem.

(** ** Paths and strings *)

(** [s.split(sep)] for a separator of one character. *)
Fixpoint split (sep : ascii) (s : string) : list string :=
  match s with
  | EmptyString => [EmptyString]
  | String c s' =>
      if Ascii.eqb c sep then EmptyString :: split sep s'
      else match split sep s' with
           | cur :: rest => String c cur :: rest
           | [] => [String c EmptyString]
           end
  end.

(** [Path(s)]: the segments of [s]; empty segments and [.] are dropped. *)
Definition Path (s : string) : path :=
  filter (λ seg, seg ≠ "" ∧ seg ≠ ".") (split "/" s).

(** [p.joinpath] applied to the parts, none of which is an absolute path. *)
Definition joinpath (p : path) (parts : list string) : path :=
  p ++ concat (Path <$> parts).

(** ** [base64.encodebytes] and [base64.decodebytes]

    The standard module, as [PickleSerializer] uses it: [encodebytes] cuts
    the input into chunks of [MAXBINSIZE] bytes and encodes each with
    [binascii.b2a_base64], which ends every line with a newline;
    [decodebytes] is [binascii.a2b_base64], which skips every byte outside
    the alphabet and stops at a completed padding. *)

Definition BASE64_PAD : byte := x3d.
Definition NEWLINE : byte := x0a.

Definition table_b2a_base64 : bytes :=
  String.list_byte_of_string
    "ABCDEFGHIJKLMNOPQRSTUVWXYZabcdefghijklmnopqrstuvwxyz0123456789+/".

(** The character of a 6-bit value. *)
Definition b2a_char (v : N) : byte :=
  nth (N.to_nat v) table_b2a_base64 BASE64_PAD.

Fixpoint index_of (c : byte) (tbl : bytes) (i : N) : option N :=
  match tbl with
  | [] => None
  | c' :: tbl' => if Byte.eqb c c' then Some i else index_of c tbl' (N.succ i)
  end.

(** The 6-bit value of a character, [None] outside the alphabet. *)
Definition table_a2b_base64 (c : byte) : option N :=
  index_of c table_b2a_base64 0%N.

(** Storing a number into an [unsigned char]. *)
Definition to_uchar (n : N) : byte :=
  default x00 (Byte.of_N (n mod 256)%N).

(** The four 6-bit values of three bytes. *)
Definition sextet0 (n0 : N) : N := N.shiftr n0 2.
Definition sextet1 (n0 n1 : N) : N := N.lor (N.shiftl (N.land n0 3) 4) (N.shiftr n1 4).
Definition sextet2 (n1 n2 : N) : N := N.lor (N.shiftl (N.land n1 15) 2) (N.shiftr n2 6).
Definition sextet3 (n2 : N) : N := N.land n2 63.

(** Groups of three bytes become four characters; a last group of one or
    two bytes is padded. *)
Fixpoint b2a_groups (data : bytes) : bytes :=
  match data with
  | [] => []
  | [b0] =>
      let n0 := Byte.to_N b0 in
      [ b2a_char (sextet0 n0);
        b2a_char (N.shiftl (N.land n0 3) 4);
        BASE64_PAD; BASE64_PAD ]
  | [b0; b1] =>
      let n0 := Byte.to_N b0 in
      let n1 := Byte.to_N b1 in
      [ b2a_char (sextet0 n0);
        b2a_char (sextet1 n0 n1);
        b2a_char (N.shiftl (N.land n1 15) 2);
        BASE64_PAD ]
  | b0 :: b1 :: b2 :: rest =>
      let n0 := Byte.to_N b0 in
      let n1 := Byte.to_N b1 in
      let n2 := Byte.to_N b2 in
      b2a_char (sextet0 n0)
      :: b2a_char (sextet1 n0 n1)
      :: b2a_char (sextet2 n1 n2)
      :: b2a_char (sextet3 n2)
      :: b2a_groups rest
  end.

(** [binascii.b2a_base64(data)] *)
Definition b2a_base64 (data : bytes) : bytes := b2a_groups data ++ [NEWLINE].

Definition MAXBINSIZE : nat := 57.

(** [range(0, n, step)] *)
Definition range_step (n step : nat) : list nat :=
  (λ k, k * step) <$> seq 0 ((n + step - 1) / step).

Definition encodebytes (s : bytes) : bytes :=
  let pieces :=
    (λ i, b2a_base64 (take MAXBINSIZE (drop i s))) <$> range_step (length s) MAXBINSIZE in
  concat pieces.

Definition emit_byte (b : byte) (r : result bytes) : result bytes :=
  match r with
  | Ok out => Ok (b :: out)
  | Raise e => Raise e
  end.

(** The decoding loop of [binascii.a2b_base64] (not in strict mode):
    [quad_pos] counts the characters of the current group, [leftchar] holds
    the bits not yet written, [pads] the padding characters just seen. *)
Fixpoint a2b_base64_from (quad_pos : nat) (leftchar : N) (pads : nat)
    (ascii_data : bytes) : result bytes :=
  match ascii_data with
  | [] =>
      match quad_pos with
      | 0 => Ok []
      | _ => Raise (Error "binascii.Error")
      end
  | this_ch :: rest =>
      if Byte.eqb this_ch BASE64_PAD then
        if (2 <=? quad_pos) && (4 <=? quad_pos + S pads) then Ok []
        else a2b_base64_from quad_pos leftchar
               (if 2 <=? quad_pos then S pads else pads) rest
      else
        match table_a2b_base64 this_ch with
        | None => a2b_base64_from quad_pos leftchar pads rest
        | Some v =>
            match quad_pos with
            | 0 => a2b_base64_from 1 v 0 rest
            | 1 => emit_byte (to_uchar (N.lor (N.shiftl leftchar 2) (N.shiftr v 4)))
                     (a2b_base64_from 2 (N.land v 15) 0 rest)
            | 2 => emit_byte (to_uchar (N.lor (N.shiftl leftchar 4) (N.shiftr v 2)))
                     (a2b_base64_from 3 (N.land v 3) 0 rest)
            | _ => emit_byte (to_uchar (N.lor (N.shiftl leftchar 6) v))
                     (a2b_base64_from 0 0 0 rest)
            end
        end
  end.

Definition a2b_base64 (ascii_data : bytes) : result bytes :=
  a2b_base64_from 0 0 0 ascii_data.

Definition decodebytes (s : bytes) : result bytes := a2b_base64 s.

(** ** [anycache/serializers.py] *)

(** The [Serializer] protocol. *)
Record Serializer := {
  dumps : pyval → result bytes;
  loads : bytes → result pyval;
}.

Definition bind_result {A B} (r : result A) (f : A → result B) : result B :=
  match r with
  | Ok a => f a
  | Raise e => Raise e
  end.

Section serializers.
Context {B : Builtins}.

Definition PickleSerializer_dumps (obj : pyval) : result bytes :=
  bind_result (pickle_dumps obj) (λ blob, Ok (encodebytes blob)).

Definition PickleSerializer_loads (blob : bytes) : result pyval :=
  bind_result (decodebytes blob) pickle_loads.

Definition PickleSerializer : Serializer :=
  {| dumps := PickleSerializer_dumps; loads := PickleSerializer_loads |}.
End serializers.

(** ** Callables that can be wrapped *)

(** [func.__name__] *)
Class Named (F : Type) := __name__ : F → string.

(** A plain function, or a coroutine function once awaited: it runs on the
    user's state and returns or raises. Its arguments are as it got them
    when it is done; callables that change their arguments in place are
    those of the module [Mutating] below. *)
Record function (U : Type) := {
  fn_name : string;
  fn_body : list pyval → kwargs_t → U → result pyval * U;
}.
Arguments fn_name {U} _.
Arguments fn_body {U} _.

(** One resumption of a generator. *)
Inductive gen_step (G : Type) :=
  | GenYield (item : pyval) (g : G)
  | GenReturn
  | GenRaise (e : exn).
Arguments GenYield {G} _ _.
Arguments GenReturn {G}.
Arguments GenRaise {G} _.

(** A generator function (synchronous or asynchronous): calling it only
    creates the generator, whose body runs when it is resumed. *)
Record generator_function (U G : Type) := {
  gen_name : string;
  gen_call : list pyval → kwargs_t → G;
  gen_resume : G → U → gen_step G * U;
}.
Arguments gen_name {U G} _.
Arguments gen_call {U G} _.
Arguments gen_resume {U G} _.

Global Instance function_named {U} : Named (function U) := fn_name.
Global Instance generator_function_named {U G} : Named (generator_function U G) := gen_name.

(** What [asyncio.iscoroutinefunction], [inspect.isasyncgenfunction] and
    [inspect.isgeneratorfunction] tell apart. *)
Inductive callable (U G : Type) :=
  | PlainFunction (f : function U)
  | CoroutineFunction (f : function U)
  | GeneratorFunction (g : generator_function U G)
  | AsyncGenFunction (g : generator_function U G).
Arguments PlainFunction {U G} _.
Arguments CoroutineFunction {U G} _.
Arguments GeneratorFunction {U G} _.
Arguments AsyncGenFunction {U G} _.

(** Iterating over a stored value. *)
Definition py_iter (x : pyval) : result (list pyval) :=
  match x with
  | PyList items => Ok items
  | PyStr s => Ok ((λ c, PyStr (String c EmptyString)) <$> String.list_ascii_of_string s)
  | _ => Raise TypeError
  end.

(** ** [CacheWrapper] *)

Record CacheWrapper := {
  is_method : bool;
  cache_dir : path;
  serializer : Serializer;
}.

(** A generator object made by one of the generator wrappers. *)
Inductive gen_state (G : Type) :=
  | Created (args : list pyval) (kwargs : kwargs_t)       (* body not started *)
  | Replaying (rest : list pyval)                         (* inside the hit branch *)
  | Forwarding (args : list pyval) (kwargs : kwargs_t)
      (content : list pyval) (source : G)                 (* suspended at [yield item] *)
  | Finished.
Arguments Created {G} _ _.
Arguments Replaying {G} _.
Arguments Forwarding {G} _ _ _ _.
Arguments Finished {G}.

(** What [next] on a generator object gives. *)
Inductive next_outcome :=
  | Yield (item : pyval)
  | StopIteration
  | Raised (e : exn).

Section CacheWrapper.
Context {B : Builtins} {U G : Type}.

Definition __init__ (cache_dir' : option string) (namespace : option string)
    (is_method' : bool) (serializer' : option Serializer) : M U CacheWrapper :=
  (* Path(cache_dir) *)
  dir ← match cache_dir' with
        | Some s => mret (Path s)
        | None => raise TypeError
        end;
  let dir :=
    match namespace with
    | Some ns =>
        match split "." ns with
        | [] => dir
        | parts => joinpath dir parts
        end
    | None => dir
    end in
  mkdir_parents_exist_ok dir;;
  mret {| is_method := is_method';
          cache_dir := dir;
          serializer := default PickleSerializer serializer' |}.

Definition read {F} `{Named F} (self : CacheWrapper) (func : F)
    (args : list pyval) (kwargs : kwargs_t) : M U pyval :=
  let key := make_key self.(is_method) (__name__ func) args kwargs in
  let cache_file := self.(cache_dir) ++ [key] in
  present ← path_exists cache_file;
  if negb present then mret PyNone
  else
    loaded ← try_except
      (blob ← read_bytes cache_file;
       content ← lift (self.(serializer).(loads) blob);
       mret (Some content))
      (λ exc,
       (* Remove the cache file if it's corrupted *)
       unlink cache_file;;
       log (WarnCorrupted exc);;
       mret None);
    match loaded with
    | None => mret PyNone
    | Some content => log (InfoLoaded key);; mret content
    end.

Definition write {F} `{Named F} (self : CacheWrapper) (content : pyval) (func : F)
    (args : list pyval) (kwargs : kwargs_t) : M U () :=
  let key := make_key self.(is_method) (__name__ func) args kwargs in
  let cache_file := self.(cache_dir) ++ [key] in
  try_except
    (open_wb cache_file;;
     blob ← lift (self.(serializer).(dumps) content);
     file_write cache_file blob;;
     log (InfoSaved key))
    (λ exc,
     (* Remove the cache file if it's corrupted *)
     unlink cache_file;;
     log (InfoWriteFailed exc)).

(** [func] called with the arguments: the body runs on the user's state. *)
Definition call (func : function U) (args : list pyval) (kwargs : kwargs_t) : M U pyval :=
  λ w, let '(r, u) := fn_body func args kwargs (user w) in
       (r, World (files w) (space w) u (events w ++ [EvCall (fn_name func) args kwargs])).

(** Wrapper for sync functions *)
Definition sync_wrapper (self : CacheWrapper) (func : function U)
    (args : list pyval) (kwargs : kwargs_t) : M U pyval :=
  hit ← read self func args kwargs;
  if is_not_None hit then mret hit
  else
    content ← call func args kwargs;
    write self content func args kwargs;;
    mret content.

(** Wrapper for async functions; [await] runs the coroutine to its end. *)
Definition async_wrapper (self : CacheWrapper) (func : function U)
    (args : list pyval) (kwargs : kwargs_t) : M U pyval :=
  hit ← read self func args kwargs;
  if is_not_None hit then mret hit
  else
    content ← call func args kwargs;
    write self content func args kwargs;;
    mret content.

(** The generator wrappers. Calling a wrapped generator function gives the
    generator object [Created args kwargs]; [sync_gen_wrapper self func g]
    is one [next] on the generator object [g]: it runs the body up to its
    next [yield], its end, or an exception. *)

Definition yield {S} (item : pyval) (suspended : S) (w : world U)
    : next_outcome * S * world U :=
  (Yield item, suspended,
   World (files w) (space w) (user w) (events w ++ [EvYield item])).

(** The hit branch: the stored items, one by one. *)
Definition replay (rest : list pyval) (w : world U)
    : next_outcome * gen_state G * world U :=
  match rest with
  | [] => (StopIteration, Finished, w)
  | item :: rest' => yield item (Replaying rest') w
  end.

(** The miss branch: the loop over the source generator, then the write. *)
Definition forward (self : CacheWrapper) (func : generator_function U G)
    (args : list pyval) (kwargs : kwargs_t) (content : list pyval) (source : G)
    (w : world U) : next_outcome * gen_state G * world U :=
  let '(step, u) := gen_resume func source (user w) in
  let w := World (files w) (space w) u (events w) in
  match step with
  | GenYield item source' =>
      yield item (Forwarding args kwargs (content ++ [item]) source') w
  | GenReturn =>
      match write self (PyList content) func args kwargs w with
      | (Ok _, w') => (StopIteration, Finished, w')
      | (Raise e, w') => (Raised e, Finished, w')
      end
  | GenRaise e => (Raised e, Finished, w)
  end.

(** Wrapper for sync generators *)
Definition sync_gen_wrapper (self : CacheWrapper) (func : generator_function U G)
    (g : gen_state G) (w : world U) : next_outcome * gen_state G * world U :=
  match g with
  | Created args kwargs =>
      match read self func args kwargs w with
      | (Raise e, w) => (Raised e, Finished, w)
      | (Ok hit, w) =>
          if is_not_None hit then
            (* yield from hit *)
            match py_iter hit with
            | Ok items => replay items w
            | Raise e => (Raised e, Finished, w)
            end
          else
            let source := gen_call func args kwargs in
            let w := World (files w) (space w) (user w)
                       (events w ++ [EvCall (gen_name func) args kwargs]) in
            forward self func args kwargs [] source w
      end
  | Replaying rest => replay rest w
  | Forwarding args kwargs content source =>
      forward self func args kwargs content source w
  | Finished => (StopIteration, Finished, w)
  end.

(** Wrapper for async generators; the awaits of the source run to their end. *)
Definition async_gen_wrapper (self : CacheWrapper) (func : generator_function U G)
    (g : gen_state G) (w : world U) : next_outcome * gen_state G * world U :=
  match g with
  | Created args kwargs =>
      match read self func args kwargs w with
      | (Raise e, w) => (Raised e, Finished, w)
      | (Ok hit, w) =>
          if is_not_None hit then
            (* for item in hit: yield item *)
            match py_iter hit with
            | Ok items => replay items w
            | Raise e => (Raised e, Finished, w)
            end
          else
            let source := gen_call func args kwargs in
            let w := World (files w) (space w) (user w)
                       (events w ++ [EvCall (gen_name func) args kwargs]) in
            forward self func args kwargs [] source w
      end
  | Replaying rest => replay rest w
  | Forwarding args kwargs content source =>
      forward self func args kwargs content source w
  | Finished => (StopIteration, Finished, w)
  end.

(** The consumer gives up: the generator object is closed where it stands. *)
Definition close (g : gen_state G) (w : world U) : gen_state G * world U :=
  (Finished, w).

(** At most [n] calls of [next], stopping at the first that does not yield:
    the items received, how the iteration ended if it did, the generator
    object and the world. *)
Fixpoint take_items
    (next : gen_state G → world U → next_outcome * gen_state G * world U)
    (n : nat) (g : gen_state G) (w : world U)
    : list pyval * option next_outcome * gen_state G * world U :=
  match n with
  | 0 => ([], None, g, w)
  | S n' =>
      match next g w with
      | (Yield item, g', w') =>
          let '(items, ending, g'', w'') := take_items next n' g' w' in
          (item :: items, ending, g'', w'')
      | (ending, g', w') => ([], Some ending, g', w')
      end
  end.

(** The source generator, resumed from [source] in the user's state [u],
    yields [items] and then returns, leaving the user's state [u']. *)
Fixpoint source_yields (func : generator_function U G) (source : G) (u : U)
    (items : list pyval) (u' : U) : Prop :=
  match items with
  | [] => gen_resume func source u = (GenReturn, u')
  | item :: rest =>
      ∃ source1 u1,
        gen_resume func source u = (GenYield item source1, u1)
        ∧ source_yields func source1 u1 rest u'
  end.

(** The source generator, resumed from [source] in the user's state [u],
    yields [items] and then raises [e], leaving the user's state [u']. *)
Fixpoint source_raises (func : generator_function U G) (source : G) (u : U)
    (items : list pyval) (e : exn) (u' : U) : Prop :=
  match items with
  | [] => gen_resume func source u = (GenRaise e, u')
  | item :: rest =>
      ∃ source1 u1,
        gen_resume func source u = (GenYield item source1, u1)
        ∧ source_raises func source1 u1 rest e u'
  end.

(** The callable that [CacheWrapper.__call__] returns. *)
Inductive wrapped :=
  | SyncWrapped (self : CacheWrapper) (func : function U)
  | SyncGenWrapped (self : CacheWrapper) (func : generator_function U G)
  | AsyncWrapped (self : CacheWrapper) (func : function U)
  | AsyncGenWrapped (self : CacheWrapper) (func : generator_function U G).

(** Create async or sync wrapper based on the type of the wrapped function *)
Definition __call__ (self : CacheWrapper) (func : callable U G) : wrapped :=
  match func with
  | CoroutineFunction f => AsyncWrapped self f
  | AsyncGenFunction g => AsyncGenWrapped self g
  | GeneratorFunction g => SyncGenWrapped self g
  | PlainFunction f => SyncWrapped self f
  end.

(** ** The decorator [cache] *)

(** [functools.partial(cache, cache_dir=..., namespace=..., is_method=...)]:
    the keywords the partial object holds. *)
Record partial := {
  partial_cache_dir : option string;
  partial_namespace : option string;
  partial_is_method : bool;
}.

Inductive decorated :=
  | Partial (p : partial)
  | Wrapped (wrapper : wrapped).

Definition cache (fn : option (callable U G)) (cache_dir' : option string)
    (namespace : option string) (is_method' : bool)
    (serializer' : option Serializer) : M U decorated :=
  match fn with
  | None =>
      (* Allow using decorator with or without parentheses *)
      mret (Partial {| partial_cache_dir := cache_dir';
                       partial_namespace := namespace;
                       partial_is_method := is_method' |})
  | Some fn =>
      self ← __init__ cache_dir' namespace is_method' serializer';
      mret (Wrapped (__call__ self fn))
  end.

(** Calling the partial object with the function under the decorator calls
    [cache] with that function and the keywords held. *)
Definition partial_call (p : partial) (fn : callable U G) : M U decorated :=
  cache (Some fn) (partial_cache_dir p) (partial_namespace p) (partial_is_method p) None.

(** The serializer a wrapped callable encodes and decodes with. *)
Definition wrapped_self (wrapper : wrapped) : CacheWrapper :=
  match wrapper with
  | SyncWrapped self _ | SyncGenWrapped self _
  | AsyncWrapped self _ | AsyncGenWrapped self _ => self
  end.

(** The entry file of a call. *)
Definition cache_file {F} `{Named F} (self : CacheWrapper) (func : F)
    (args : list pyval) (kwargs : kwargs_t) : path :=
  self.(cache_dir) ++ [make_key self.(is_method) (__name__ func) args kwargs].

(** [n] calls of a wrapped synchronous function in a row, with the same
    arguments; the results in order, up to the first call that raises. *)
Fixpoint call_repeatedly (self : CacheWrapper) (func : function U)
    (args : list pyval) (kwargs : kwargs_t) (n : nat) (w : world U)
    : list (result pyval) * world U :=
  match n with
  | 0 => ([], w)
  | S n' =>
      match sync_wrapper self func args kwargs w with
      | (Ok v, w') =>
          let '(rs, w'') := call_repeatedly self func args kwargs n' w' in
          (Ok v :: rs, w'')
      | (Raise e, w') => ([Raise e], w')
      end
  end.
End CacheWrapper.

(** Size of the file at [p], if there is one. *)
Definition size_at (fs : gmap path node) (p : path) : nat :=
  match fs !! p with
  | Some (File data) => length data
  | _ => 0
  end.

(** ** Callables that change their arguments

    The arguments of a call are objects, and the callable may change them
    in place ([lst.append(1)]). The wrappers look the entry up before the
    call and compute the key anew for [write] after it, from the same
    objects: [write] sees the arguments as the call left them. The
    definitions above are those of callables that leave their arguments as
    they got them. In this module a callable also says what its arguments
    are when it is done, and the wrappers hand those to [write]. *)
Module Mutating.

(** How a call ends. *)
Record call_outcome (U : Type) := CallOutcome {
  returned : result pyval;   (* the value returned, or the exception raised *)
  args_after : list pyval;   (* the positional arguments as the call left them *)
  kwargs_after : kwargs_t;   (* the keyword arguments as the call left them *)
  user_after : U;            (* the state of the user's program after the call *)
}.
Arguments CallOutcome {U} _ _ _ _.
Arguments returned {U} _.
Arguments args_after {U} _.
Arguments kwargs_after {U} _.
Arguments user_after {U} _.

(** A plain function, or a coroutine function once awaited. *)
Record function (U : Type) := {
  fn_name : string;
  fn_body : list pyval → kwargs_t → U → call_outcome U;
}.
Arguments fn_name {U} _.
Arguments fn_body {U} _.

(** One resumption of a generator; when the body returns, the arguments
    are as it left them. *)
Inductive gen_step (G : Type) :=
  | GenYield (item : pyval) (g : G)
  | GenReturn (args : list pyval) (kwargs : kwargs_t)
  | GenRaise (e : exn).
Arguments GenYield {G} _ _.
Arguments GenReturn {G} _ _.
Arguments GenRaise {G} _.

Record generator_function (U G : Type) := {
  gen_name : string;
  gen_call : list pyval → kwargs_t → G;
  gen_resume : G → U → gen_step G * U;
}.
Arguments gen_name {U G} _.
Arguments gen_call {U G} _.
Arguments gen_resume {U G} _.

Global Instance function_named {U} : Named (function U) := fn_name.
Global Instance generator_function_named {U G} : Named (generator_function U G) := gen_name.

Inductive callable (U G : Type) :=
  | PlainFunction (f : function U)
  | CoroutineFunction (f : function U)
  | GeneratorFunction (g : generator_function U G)
  | AsyncGenFunction (g : generator_function U G).
Arguments PlainFunction {U G} _.
Arguments CoroutineFunction {U G} _.
Arguments GeneratorFunction {U G} _.
Arguments AsyncGenFunction {U G} _.

Section wrappers.
Context {B : Builtins} {U G : Type}.

(** [func] called with the arguments: the body runs on the user's state;
    the caller gets the value together with the arguments as they are now. *)
Definition call (func : function U) (args : list pyval) (kwargs : kwargs_t)
    : M U (pyval * list pyval * kwargs_t) :=
  λ w, let out := fn_body func args kwargs (user w) in
       let w' := World (files w) (space w) (user_after out)
                   (events w ++ [EvCall (fn_name func) args kwargs]) in
       match returned out with
       | Ok content => (Ok (content, args_after out, kwargs_after out), w')
       | Raise e => (Raise e, w')
       end.

(** Wrapper for sync functions *)
Definition sync_wrapper (self : CacheWrapper) (func : function U)
    (args : list pyval) (kwargs : kwargs_t) : M U pyval :=
  hit ← read self func args kwargs;
  if is_not_None hit then mret hit
  else
    '(content, args, kwargs) ← call func args kwargs;
    write self content func args kwargs;;
    mret content.

(** Wrapper for async functions; [await] runs the coroutine to its end. *)
Definition async_wrapper (self : CacheWrapper) (func : function U)
    (args : list pyval) (kwargs : kwargs_t) : M U pyval :=
  hit ← read self func args kwargs;
  if is_not_None hit then mret hit
  else
    '(content, args, kwargs) ← call func args kwargs;
    write self content func args kwargs;;
    mret content.

(** The call leaves the key of its arguments as it was: it does not change
    them, or not in a way that their text form shows. *)
Definition keeps_key (self : CacheWrapper) (func : function U)
    (args : list pyval) (kwargs : kwargs_t) (u : U) : Prop :=
  make_key self.(is_method) (fn_name func)
    (args_after (fn_body func args kwargs u)) (kwargs_after (fn_body func args kwargs u))
  = make_key self.(is_method) (fn_name func) args kwargs.

(** The miss branch of the generator wrappers: the loop over the source
    generator, then the write under the key of the arguments as they are
    when the source has returned. *)
Definition forward (self : CacheWrapper) (func : generator_function U G)
    (args : list pyval) (kwargs : kwargs_t) (content : list pyval) (source : G)
    (w : world U) : next_outcome * gen_state G * world U :=
  let '(step, u) := gen_resume func source (user w) in
  let w := World (files w) (space w) u (events w) in
  match step with
  | GenYield item source' =>
      yield item (Forwarding args kwargs (content ++ [item]) source') w
  | GenReturn args kwargs =>
      match write self (PyList content) func args kwargs w with
      | (Ok _, w') => (StopIteration, Finished, w')
      | (Raise e, w') => (Raised e, Finished, w')
      end
  | GenRaise e => (Raised e, Finished, w)
  end.

(** Wrapper for sync generators *)
Definition sync_gen_wrapper (self : CacheWrapper) (func : generator_function U G)
    (g : gen_state G) (w : world U) : next_outcome * gen_state G * world U :=
  match g with
  | Created args kwargs =>
      match read self func args kwargs w with
      | (Raise e, w) => (Raised e, Finished, w)
      | (Ok hit, w) =>
          if is_not_None hit then
            (* yield from hit *)
            match py_iter hit with
            | Ok items => replay items w
            | Raise e => (Raised e, Finished, w)
            end
          else
            let source := gen_call func args kwargs in
            let w := World (files w) (space w) (user w)
                       (events w ++ [EvCall (gen_name func) args kwargs]) in
            forward self func args kwargs [] source w
      end
  | Replaying rest => replay rest w
  | Forwarding args kwargs content source =>
      forward self func args kwargs content source w
  | Finished => (StopIteration, Finished, w)
  end.

(** Wrapper for async generators; the awaits of the source run to their end. *)
Definition async_gen_wrapper (self : CacheWrapper) (func : generator_function U G)
    (g : gen_state G) (w : world U) : next_outcome * gen_state G * world U :=
  match g with
  | Created args kwargs =>
      match read self func args kwargs w with
      | (Raise e, w) => (Raised e, Finished, w)
      | (Ok hit, w) =>
          if is_not_None hit then
            (* for item in hit: yield item *)
            match py_iter hit with
            | Ok items => replay items w
            | Raise e => (Raised e, Finished, w)
            end
          else
            let source := gen_call func args kwargs in
            let w := World (files w) (space w) (user w)
                       (events w ++ [EvCall (gen_name func) args kwargs]) in
            forward self func args kwargs [] source w
      end
  | Replaying rest => replay rest w
  | Forwarding args kwargs content source =>
      forward self func args kwargs content source w
  | Finished => (StopIteration, Finished, w)
  end.

(** The source generator, resumed from [source] in the user's state [u],
    yields [items] and then returns, leaving the arguments as [args] and
    [kwargs] and the user's state [u']. *)
Fixpoint source_yields (func : generator_function U G) (source : G) (u : U)
    (items : list pyval) (args : list pyval) (kwargs : kwargs_t) (u' : U) : Prop :=
  match items with
  | [] => gen_resume func source u = (GenReturn args kwargs, u')
  | item :: rest =>
      ∃ source1 u1,
        gen_resume func source u = (GenYield item source1, u1)
        ∧ source_yields func source1 u1 rest args kwargs u'
  end.

(** The callable that [CacheWrapper.__call__] returns. *)
Inductive wrapped :=
  | SyncWrapped (self : CacheWrapper) (func : function U)
  | SyncGenWrapped (self : CacheWrapper) (func : generator_function U G)
  | AsyncWrapped (self : CacheWrapper) (func : function U)
  | AsyncGenWrapped (self : CacheWrapper) (func : generator_function U G).

(** Create async or sync wrapper based on the type of the wrapped function *)
Definition __call__ (self : CacheWrapper) (func : callable U G) : wrapped :=
  match func with
  | CoroutineFunction f => AsyncWrapped self f
  | AsyncGenFunction g => AsyncGenWrapped self g
  | GeneratorFunction g => SyncGenWrapped self g
  | PlainFunction f => SyncWrapped self f
  end.

Inductive decorated :=
  | Partial (p : partial)
  | Wrapped (wrapper : wrapped).

Definition cache (fn : option (callable U G)) (cache_dir' : option string)
    (namespace : option string) (is_method' : bool)
    (serializer' : option Serializer) : M U decorated :=
  match fn with
  | None =>
      (* Allow using decorator with or without parentheses *)
      mret (Partial {| partial_cache_dir := cache_dir';
                       partial_namespace := namespace;
                       partial_is_method := is_method' |})
  | Some fn =>
      self ← __init__ cache_dir' namespace is_method' serializer';
      mret (Wrapped (__call__ self fn))
  end.

Definition partial_call (p : partial) (fn : callable U G) : M U decorated :=
  cache (Some fn) (partial_cache_dir p) (partial_namespace p) (partial_is_method p) None.

Definition wrapped_self (wrapper : wrapped) : CacheWrapper :=
  match wrapper with
  | SyncWrapped self _ | SyncGenWrapped self _
  | AsyncWrapped self _ | AsyncGenWrapped self _ => self
  end.

(** [n] calls of a wrapped synchronous function in a row, each with
    arguments equal to [args] and [kwargs]; the results in order, up to the
    first call that raises. *)
Fixpoint call_repeatedly (self : CacheWrapper) (func : function U)
    (args : list pyval) (kwargs : kwargs_t) (n : nat) (w : world U)
    : list (result pyval) * world U :=
  match n with
  | 0 => ([], w)
  | S n' =>
      match sync_wrapper self func args kwargs w with
      | (Ok v, w') =>
          let '(rs, w'') := call_repeatedly self func args kwargs n' w' in
          (Ok v :: rs, w'')
      | (Raise e, w') => ([Raise e], w')
      end
  end.
End wrappers.
End Mutating.

(** A callable of the first kind, that leaves its arguments as it got
    them, among those of the second. *)
Definition leaves_arguments {U} (func : function U) : Mutating.function U :=
  {| Mutating.fn_name := fn_name func;
     Mutating.fn_body := λ args kwargs u,
       let '(r, u') := fn_body func args kwargs u in
       Mutating.CallOutcome r args kwargs u' |}.

(** The same for a generator function; the generator keeps the arguments
    it was created with. *)
Definition gen_leaves_arguments {U G} (func : generator_function U G)
    : Mutating.generator_function U (list pyval * kwargs_t * G) :=
  {| Mutating.gen_name := gen_name func;
     Mutating.gen_call := λ args kwargs, (args, kwargs, gen_call func args kwargs);
     Mutating.gen_resume := λ '(args, kwargs, source) u,
       match gen_resume func source u with
       | (GenYield item source', u') => (Mutating.GenYield item (args, kwargs, source'), u')
       | (GenReturn, u') => (Mutating.GenReturn args kwargs, u')
       | (GenRaise e, u') => (Mutating.GenRaise e, u')
       end |}.

(** The generator object of the second kind for one of the first. *)
Definition with_arguments {G} (g : gen_state G) : gen_state (list pyval * kwargs_t * G) :=
  match g with
  | Created args kwargs => Created args kwargs
  | Replaying rest => Replaying rest
  | Forwarding args kwargs content source =>
      Forwarding args kwargs content (args, kwargs, source)
  | Finished => Finished
  end.

(** ** Sample builtins and programs, for the examples *)

(** Decimal text of an integer. *)
Definition decimal (z : Z) : string :=
  DecimalString.NilZero.string_of_int (Z.to_int z).

Definition sample_str (x : pyval) : string :=
  match x with
  | PyNone => "None"
  | PyBool true => "True"
  | PyBool false => "False"
  | PyInt z => decimal z
  | PyStr s => s
  | PyList _ => "[...]"
  | PyObject cls addr => "<" +:+ cls +:+ " object at " +:+ decimal addr +:+ ">"
  end.

(** A stand-in for [pickle] on [None], small integers and lists of them;
    anything else cannot be pickled. *)
Definition small_int (x : pyval) : option byte :=
  match x with
  | PyInt z => if decide (0 ≤ z < 256)%Z then Byte.of_N (Z.to_N z) else None
  | _ => None
  end.

Definition sample_pickle_dumps (x : pyval) : result bytes :=
  match x with
  | PyNone => Ok [x4e]
  | PyInt _ =>
      match small_int x with
      | Some b => Ok [x49; b]
      | None => Raise (Error "PicklingError")
      end
  | PyList items =>
      match mapM small_int items with
      | Some bs => Ok (x4c :: bs)
      | None => Raise (Error "PicklingError")
      end
  | _ => Raise (Error "PicklingError")
  end.

Definition int_of_byte (b : byte) : pyval := PyInt (Z.of_N (Byte.to_N b)).

Definition sample_pickle_loads (blob : bytes) : result pyval :=
  match blob with
  | [x4e] => Ok PyNone
  | [x49; b] => Ok (int_of_byte b)
  | x4c :: bs => Ok (PyList (int_of_byte <$> bs))
  | _ => Raise (Error "UnpicklingError")
  end.

(** The digest is replaced by the text itself. *)
Definition sample_builtins : Builtins :=
  {| str := sample_str;
     sha256_hexdigest := λ s, s;
     pickle_dumps := sample_pickle_dumps;
     pickle_loads := sample_pickle_loads |}.

(** The user's state is the counter [n_calls] of the tests. *)

(** [def fn(a): n_calls += 1; return a + 1] *)
Definition sample_fn : function nat :=
  {| fn_name := "fn";
     fn_body := λ args _ n_calls,
       match args with
       | [PyInt a] => (Ok (PyInt (a + 1)), S n_calls)
       | _ => (Raise TypeError, n_calls)
       end |}.

(** [def fn(a): n_calls += 1; return None] *)
Definition sample_fn_none : function nat :=
  {| fn_name := "fn"; fn_body := λ _ _ n_calls, (Ok PyNone, S n_calls) |}.

(** [def fn(a): n_calls += 1; raise ValueError] *)
Definition sample_fn_raise : function nat :=
  {| fn_name := "fn"; fn_body := λ _ _ n_calls, (Raise (Error "ValueError"), S n_calls) |}.

(** [def fn(a): n_calls += 1; for i in range(3): yield a + i]; the state of
    the generator is [a] and the next [i]. *)
Definition sample_gen : generator_function nat (Z * nat) :=
  {| gen_name := "fn";
     gen_call := λ args _, match args with [PyInt a] => (a, 0) | _ => (0%Z, 3) end;
     gen_resume := λ '(a, i) n_calls,
       let n_calls := match i with 0 => S n_calls | _ => n_calls end in
       if decide (i < 3) then (GenYield (PyInt (a + Z.of_nat i)) (a, S i), n_calls)
       else (GenReturn, n_calls) |}.

Definition sample_self : CacheWrapper :=
  {| is_method := false; cache_dir := ["cache"];
     serializer := @PickleSerializer sample_builtins |}.

(** A world with an empty cache directory. *)
Definition sample_world : world nat :=
  World {[ ["cache"] := Dir ]} 1000 0 [].

(** A world in which the cache directory is gone. *)
Definition sample_world_no_dir : world nat :=
  World ∅ 1000 0 [].

(** A world in which the entry of [fn(3)] holds bytes that do not decode. *)
Definition sample_world_corrupted : world nat :=
  World {[ ["cache"] := Dir; ["cache"; "fn:3"] := File [x21] ]} 1000 0 [].

(** A world in which the entry of [fn(3)] holds an encoded [None]. *)
Definition sample_world_None : world nat :=
  World {[ ["cache"] := Dir; ["cache"; "fn:3"] := File (encodebytes [x4e]) ]} 1000 0 [].

(** [def fn(a): n_calls += 1; return object()] *)
Definition sample_fn_object : function nat :=
  {| fn_name := "fn"; fn_body := λ _ _ n_calls, (Ok (PyObject "object" 1), S n_calls) |}.

(** A world with the cache directory on a full device. *)
Definition sample_world_full : world nat :=
  World {[ ["cache"] := Dir ]} 0 0 [].

(** A world in which a file stands where the cache directory should be. *)
Definition sample_world_file_in_the_way : world nat :=
  World {[ ["cache"] := File [] ]} 1000 0 [].


(** [def fn(a): n_calls += 1; yield a; raise ValueError]; the state of the
    generator says whether [a] was yielded. *)
Definition sample_gen_raise : generator_function nat (Z * bool) :=
  {| gen_name := "fn";
     gen_call := λ args _, match args with [PyInt a] => (a, false) | _ => (0%Z, true) end;
     gen_resume := λ '(a, yielded) n_calls,
       if yielded then (GenRaise (Error "ValueError"), n_calls)
       else (GenYield (PyInt a) (a, true), S n_calls) |}.

(** A world in which the entry of [fn(3)] holds the encoded integer 4. *)
Definition sample_world_int_entry : world nat :=
  World {[ ["cache"] := Dir; ["cache"; "fn:3"] := File (encodebytes [x49; x04]) ]}
    1000 0 [].

(** A serializer of the user's own: the pickled bytes as they are. *)
Definition sample_raw_serializer : Serializer :=
  {| dumps := sample_pickle_dumps; loads := sample_pickle_loads |}.

(** [str] that shows the items of a list, as Python does for integers. *)
Definition sample_str_lists (x : pyval) : string :=
  match x with
  | PyList items => "[" +:+ join ", " (sample_str <$> items) +:+ "]"
  | _ => sample_str x
  end.

Definition sample_builtins_lists : Builtins :=
  {| str := sample_str_lists;
     sha256_hexdigest := λ s, s;
     pickle_dumps := sample_pickle_dumps;
     pickle_loads := sample_pickle_loads |}.

Definition sample_self_lists : CacheWrapper :=
  {| is_method := false; cache_dir := ["cache"];
     serializer := @PickleSerializer sample_builtins_lists |}.

(** [def fn(lst): n_calls += 1; lst.append(1); return len(lst)] *)
Definition sample_fn_append : Mutating.function nat :=
  {| Mutating.fn_name := "fn";
     Mutating.fn_body := λ args kwargs n_calls,
       match args with
       | [PyList items] =>
           Mutating.CallOutcome (Ok (PyInt (Z.of_nat (S (length items)))))
             [PyList (items ++ [PyInt 1])] kwargs (S n_calls)
       | [_] => Mutating.CallOutcome (Raise (Error "AttributeError")) args kwargs (S n_calls)
       | _ => Mutating.CallOutcome (Raise TypeError) args kwargs n_calls
       end |}.

(** [def fn(lst): n_calls += 1; yield len(lst); lst.append(1)]; the state
    of the generator is the list and whether its length was yielded. *)
Definition sample_gen_append : Mutating.generator_function nat (list pyval * bool) :=
  {| Mutating.gen_name := "fn";
     Mutating.gen_call := λ args _,
       match args with [PyList items] => (items, false) | _ => ([], true) end;
     Mutating.gen_resume := λ '(items, yielded) n_calls,
       if yielded then (Mutating.GenReturn [PyList (items ++ [PyInt 1])] ∅, n_calls)
       else (Mutating.GenYield (PyInt (Z.of_nat (length items))) (items, true), S n_calls) |}.

(** * Properties *)

(** ** The order on keys *)

Lemma ascii_compare_Eq (a b : ascii) : Ascii.compare a b = Eq → a = b.
Proof. apply Ascii.compare_eq_iff. Qed.

Lemma ascii_compare_Lt_trans (a b c : ascii) :
  Ascii.compare a b = Lt → Ascii.compare b c = Lt → Ascii.compare a c = Lt.
Proof.
  unfold Ascii.compare. rewrite !N.compare_lt_iff. lia.
Qed.

Lemma string_compare_Lt_trans (a b c : string) :
  String.compare a b = Lt → String.compare b c = Lt → String.compare a c = Lt.
Proof.
  revert b c. induction a as [|x a IH]; intros [|y b] [|z c]; simpl; try done.
  destruct (Ascii.compare x y) eqn:Hxy; try done;
    destruct (Ascii.compare y z) eqn:Hyz; try done; intros Hab Hbc.
  - apply ascii_compare_Eq in Hxy, Hyz. subst.
    rewrite (proj2 (N.compare_eq_iff _ _) eq_refl : Ascii.compare z z = Eq). eauto.
  - apply ascii_compare_Eq in Hxy. subst. by rewrite Hyz.
  - apply ascii_compare_Eq in Hyz. subst. by rewrite Hxy.
  - by rewrite (ascii_compare_Lt_trans _ _ _ Hxy Hyz).
Qed.

Lemma string_leb_trans (a b c : string) :
  String.leb a b = true → String.leb b c = true → String.leb a c = true.
Proof.
  unfold String.leb.
  destruct (String.compare a b) eqn:Hab; try done;
    destruct (String.compare b c) eqn:Hbc; try done; intros _ _.
  - apply String.compare_eq_iff in Hab. subst. by rewrite Hbc.
  - apply String.compare_eq_iff in Hab. subst. by rewrite Hbc.
  - apply String.compare_eq_iff in Hbc. subst. by rewrite Hab.
  - by rewrite (string_compare_Lt_trans _ _ _ Hab Hbc).
Qed.

Lemma string_ltb_leb (a b : string) : String.ltb a b = true → String.leb a b = true.
Proof. unfold String.ltb, String.leb. by destruct (String.compare a b). Qed.

Lemma string_ltb_false_leb (a b : string) : String.ltb a b = false → String.leb b a = true.
Proof.
  unfold String.ltb, String.leb. rewrite (String.compare_antisym a b).
  by destruct (String.compare b a).
Qed.

Global Instance item_le_trans : Transitive item_le.
Proof. intros x y z. unfold item_le. apply string_leb_trans. Qed.

Global Instance item_le_total : Total item_le.
Proof. intros x y. unfold item_le. apply String.leb_total. Qed.

Lemma item_le_antisym_key (x y : string * pyval) :
  item_le x y → item_le y x → x.1 = y.1.
Proof. unfold item_le. apply String.leb_antisym. Qed.

(** ** [make_key] *)

Lemma insert_by_key_Permutation (kv : string * pyval) l :
  insert_by_key kv l ≡ₚ kv :: l.
Proof.
  induction l as [|kv' l IH]; simpl; [done|].
  destruct (String.ltb kv'.1 kv.1); [|done].
  rewrite IH. apply Permutation_swap.
Qed.

Lemma sort_by_key_Permutation l : sort_by_key l ≡ₚ l.
Proof.
  induction l as [|kv l IH]; simpl; [done|].
  by rewrite insert_by_key_Permutation, IH.
Qed.

Lemma insert_by_key_Sorted (kv : string * pyval) l :
  Sorted item_le l → Sorted item_le (insert_by_key kv l).
Proof.
  induction 1 as [|kv' l Hl IH Hhd]; simpl.
  { repeat constructor. }
  destruct (String.ltb kv'.1 kv.1) eqn:Hlt.
  - constructor; [done|].
    destruct Hhd as [|kv'' l' Hle]; simpl.
    + constructor. by apply string_ltb_leb.
    + destruct (String.ltb kv''.1 kv.1); constructor; [done|].
      by apply string_ltb_leb.
  - constructor; [by constructor|]. constructor. by apply string_ltb_false_leb.
Qed.

Lemma sort_by_key_Sorted l : Sorted item_le (sort_by_key l).
Proof.
  induction l as [|kv l IH]; simpl; [constructor|].
  by apply insert_by_key_Sorted.
Qed.

(** Python's [sorted] and the sort by key agree on the items of a dict. *)
Lemma sorted_items (kwargs : kwargs_t) :
  sorted (map_to_list kwargs) = sort_by_key (map_to_list kwargs).
Proof.
  apply (Sorted_unique_strong item_le).
  - intros [k1 v1] [k2 v2] H1 H2 Hle Hge.
    pose proof (item_le_antisym_key _ _ Hle Hge) as Hk. simpl in Hk. subst k2.
    unfold sorted in H1. rewrite merge_sort_Permutation in H1.
    rewrite sort_by_key_Permutation in H2.
    apply elem_of_map_to_list in H1, H2. congruence.
  - apply Sorted_merge_sort, _.
  - apply sort_by_key_Sorted.
  - unfold sorted. by rewrite merge_sort_Permutation, sort_by_key_Permutation.
Qed.


Lemma join_nonempty (a b c : string) :
  join ":" (filter (λ kp, kp ≠ "") [a; b; c]) = colon a (colon b c).
Proof.
  unfold join.
  destruct a as [|x a], b as [|y b], c as [|z c]; try reflexivity.
Qed.

Section make_key_facts.
Context {B : Builtins}.

Lemma positional_component_drop (is_method : bool) (args : list pyval) :
  positional_component is_method args
  = join "_" (str <$> (if is_method then drop 1 args else args)).
Proof. by destruct is_method, args. Qed.

(** C2: [make_key] is a function of the flag, the function's name and the
    arguments, equal to the reference definition of the key (the digest of
    the name, the positional arguments in text form joined with underscores
    without the first one for a bound method, and the [key=value] pairs
    sorted by key, colon-joined with empty components left out); with the
    flag set, the receiver does not enter the key. *)
Theorem make_key_reference_correct :
  (∀ is_method func_name args kwargs,
     make_key is_method func_name args kwargs
     = make_key_reference is_method func_name args kwargs)
  ∧ (∀ func_name obj other_obj args kwargs,
       make_key true func_name (obj :: args) kwargs
       = make_key true func_name (other_obj :: args) kwargs).
Proof.
  split; [|done].
  intros is_method func_name args kwargs.
  unfold make_key, make_key_reference.
  rewrite join_nonempty, positional_component_drop.
  unfold keyword_component. by rewrite sorted_items.
Qed.
End make_key_facts.

(** ** Base64 *)

(** A property checked on every number below a bound holds below it. *)
Lemma forallb_below (P : N → bool) (k : nat) :
  forallb P (N.of_nat <$> seq 0 k) = true → ∀ n, (n < N.of_nat k)%N → P n = true.
Proof.
  intros Hall n Hn. rewrite forallb_forall in Hall. apply Hall.
  apply list_elem_of_In, list_elem_of_fmap. exists (N.to_nat n). split; [lia|].
  apply elem_of_seq. lia.
Qed.

Lemma forallb_below2 (P : N → N → bool) (k : nat) :
  forallb (λ a, forallb (P a) (N.of_nat <$> seq 0 k)) (N.of_nat <$> seq 0 k) = true →
  ∀ a b, (a < N.of_nat k)%N → (b < N.of_nat k)%N → P a b = true.
Proof.
  intros Hall a b Ha Hb.
  apply (forallb_below (P a) k); [|done].
  by apply (forallb_below (λ a, forallb (P a) (N.of_nat <$> seq 0 k)) k).
Qed.

Lemma to_N_lt (b : byte) : (Byte.to_N b < N.of_nat 256)%N.
Proof. pose proof (Byte.to_N_bounded b). lia. Qed.

Lemma to_uchar_to_N (b : byte) (n : N) : (n mod 256)%N = Byte.to_N b → to_uchar n = b.
Proof. intros Hn. unfold to_uchar. by rewrite Hn, Byte.of_to_N. Qed.

(** Every 6-bit value has a character of the alphabet, which is not the
    padding and decodes to the value. *)
Lemma b2a_char_a2b (v : N) :
  (v < 64)%N →
  Byte.eqb (b2a_char v) BASE64_PAD = false ∧ table_a2b_base64 (b2a_char v) = Some v.
Proof.
  intros Hv.
  pose proof (forallb_below
    (λ v, negb (Byte.eqb (b2a_char v) BASE64_PAD)
          && bool_decide (table_a2b_base64 (b2a_char v) = Some v)) 64) as Hall.
  specialize (Hall ltac:(vm_compute; reflexivity) v Hv).
  apply andb_true_iff in Hall as [H1 H2].
  apply negb_true_iff in H1. by apply bool_decide_eq_true in H2.
Qed.

Lemma sextets_facts (a b : N) :
  (a < N.of_nat 256)%N → (b < N.of_nat 256)%N →
  (sextet0 a < 64)%N ∧ (sextet1 a b < 64)%N ∧ (sextet2 a b < 64)%N ∧ (sextet3 a < 64)%N
  ∧ (N.lor (N.shiftl (sextet0 a) 2) (N.shiftr (sextet1 a b) 4) mod 256 = a)%N
  ∧ N.land (sextet1 a b) 15 = N.shiftr b 4
  ∧ (N.lor (N.shiftl (N.shiftr a 4) 4) (N.shiftr (sextet2 a b) 2) mod 256 = a)%N
  ∧ N.land (sextet2 a b) 3 = N.shiftr b 6
  ∧ (N.lor (N.shiftl (N.shiftr a 6) 6) (sextet3 a) mod 256 = a)%N.
Proof.
  intros Ha Hb.
  pose proof (forallb_below2
    (λ a b,
       (sextet0 a <? 64)%N && (sextet1 a b <? 64)%N && (sextet2 a b <? 64)%N
       && (sextet3 a <? 64)%N
       && (N.lor (N.shiftl (sextet0 a) 2) (N.shiftr (sextet1 a b) 4) mod 256 =? a)%N
       && (N.land (sextet1 a b) 15 =? N.shiftr b 4)%N
       && (N.lor (N.shiftl (N.shiftr a 4) 4) (N.shiftr (sextet2 a b) 2) mod 256 =? a)%N
       && (N.land (sextet2 a b) 3 =? N.shiftr b 6)%N
       && (N.lor (N.shiftl (N.shiftr a 6) 6) (sextet3 a) mod 256 =? a)%N) 256) as Hall.
  specialize (Hall ltac:(vm_compute; reflexivity) a b Ha Hb).
  repeat (apply andb_true_iff in Hall as [Hall ?]).
  repeat match goal with
         | H : (_ <? _)%N = true |- _ => apply N.ltb_lt in H
         | H : (_ =? _)%N = true |- _ => apply N.eqb_eq in H
         end.
  repeat split; try assumption; by apply N.ltb_lt.
Qed.

Lemma a2b_step_char (quad_pos : nat) (leftchar : N) (pads : nat) (v : N) rest :
  (v < 64)%N →
  a2b_base64_from quad_pos leftchar pads (b2a_char v :: rest)
  = match quad_pos with
    | 0 => a2b_base64_from 1 v 0 rest
    | 1 => emit_byte (to_uchar (N.lor (N.shiftl leftchar 2) (N.shiftr v 4)))
             (a2b_base64_from 2 (N.land v 15) 0 rest)
    | 2 => emit_byte (to_uchar (N.lor (N.shiftl leftchar 4) (N.shiftr v 2)))
             (a2b_base64_from 3 (N.land v 3) 0 rest)
    | _ => emit_byte (to_uchar (N.lor (N.shiftl leftchar 6) v))
             (a2b_base64_from 0 0 0 rest)
    end.
Proof.
  intros Hv. destruct (b2a_char_a2b v Hv) as [Hpad Htbl].
  cbn [a2b_base64_from]. by rewrite Hpad, Htbl.
Qed.

Lemma a2b_step_newline (quad_pos : nat) (leftchar : N) (pads : nat) rest :
  a2b_base64_from quad_pos leftchar pads (NEWLINE :: rest)
  = a2b_base64_from quad_pos leftchar pads rest.
Proof. reflexivity. Qed.

(** A full group decodes to its three bytes. *)
Lemma a2b_group (b0 b1 b2 : byte) rest :
  a2b_base64_from 0 0 0 (b2a_groups [b0; b1; b2] ++ rest)
  = emit_byte b0 (emit_byte b1 (emit_byte b2 (a2b_base64_from 0 0 0 rest))).
Proof.
  pose proof (sextets_facts _ _ (to_N_lt b0) (to_N_lt b1))
    as (S0 & S1 & _ & _ & B0 & L1 & _ & _ & _).
  pose proof (sextets_facts _ _ (to_N_lt b1) (to_N_lt b2))
    as (_ & _ & S2 & _ & _ & _ & B1 & L2 & _).
  pose proof (sextets_facts _ _ (to_N_lt b2) (to_N_lt b2))
    as (_ & _ & _ & S3 & _ & _ & _ & _ & B2).
  cbn [b2a_groups app].
  rewrite (a2b_step_char 0 _ _ _ _ S0), (a2b_step_char 1 _ _ _ _ S1),
    (a2b_step_char 2 _ _ _ _ S2), (a2b_step_char 3 _ _ _ _ S3).
  rewrite L1, L2.
  by rewrite (to_uchar_to_N b0 _ B0), (to_uchar_to_N b1 _ B1), (to_uchar_to_N b2 _ B2).
Qed.

(** A padded last group decodes to its one or two bytes, whatever follows. *)
Lemma a2b_group_1 (b0 : byte) rest :
  a2b_base64_from 0 0 0 (b2a_groups [b0] ++ rest) = Ok [b0].
Proof.
  assert (0 < N.of_nat 256)%N as H0 by lia.
  pose proof (sextets_facts _ _ (to_N_lt b0) H0) as (S0 & S1 & _ & _ & B0 & _).
  assert (sextet1 (Byte.to_N b0) 0 = N.shiftl (N.land (Byte.to_N b0) 3) 4) as E.
  { unfold sextet1. by rewrite N.shiftr_0_l, N.lor_0_r. }
  cbn [b2a_groups app]. rewrite <-E.
  rewrite (a2b_step_char 0 _ _ _ _ S0), (a2b_step_char 1 _ _ _ _ S1).
  by rewrite (to_uchar_to_N b0 _ B0).
Qed.

Lemma a2b_group_2 (b0 b1 : byte) rest :
  a2b_base64_from 0 0 0 (b2a_groups [b0; b1] ++ rest) = Ok [b0; b1].
Proof.
  assert (0 < N.of_nat 256)%N as H0 by lia.
  pose proof (sextets_facts _ _ (to_N_lt b0) (to_N_lt b1))
    as (S0 & S1 & _ & _ & B0 & L1 & _ & _ & _).
  pose proof (sextets_facts _ _ (to_N_lt b1) H0)
    as (_ & _ & S2 & _ & _ & _ & B1 & _).
  assert (sextet2 (Byte.to_N b1) 0 = N.shiftl (N.land (Byte.to_N b1) 15) 2) as E.
  { unfold sextet2. by rewrite N.shiftr_0_l, N.lor_0_r. }
  cbn [b2a_groups app]. rewrite <-E.
  rewrite (a2b_step_char 0 _ _ _ _ S0), (a2b_step_char 1 _ _ _ _ S1),
    (a2b_step_char 2 _ _ _ _ S2).
  rewrite L1. by rewrite (to_uchar_to_N b0 _ B0), (to_uchar_to_N b1 _ B1).
Qed.

Lemma b2a_groups_cons3 (b0 b1 b2 : byte) data :
  b2a_groups (b0 :: b1 :: b2 :: data) = b2a_groups [b0; b1; b2] ++ b2a_groups data.
Proof. reflexivity. Qed.

(** A line of full groups decodes to its bytes, and decoding goes on. *)
Lemma a2b_full_line (k : nat) : ∀ (data : bytes) rest,
  length data = 3 * k →
  a2b_base64_from 0 0 0 (b2a_base64 data ++ rest)
  = foldr emit_byte (a2b_base64_from 0 0 0 rest) data.
Proof.
  unfold b2a_base64. induction k as [|k IH]; intros data rest Hlen.
  { destruct data; [|simpl in Hlen; lia]. reflexivity. }
  destruct data as [|b0 [|b1 [|b2 data]]]; simpl in Hlen; try lia.
  rewrite b2a_groups_cons3, <-!app_assoc, a2b_group.
  rewrite app_assoc, IH by lia. reflexivity.
Qed.

(** The last line decodes to its bytes, whatever its length. *)
Lemma a2b_last_line (k : nat) : ∀ (data : bytes),
  length data < 3 * S k →
  a2b_base64_from 0 0 0 (b2a_base64 data) = Ok data.
Proof.
  unfold b2a_base64. induction k as [|k IH]; intros data Hlen;
    destruct data as [|b0 [|b1 [|b2 data]]]; simpl in Hlen; try lia;
    try reflexivity; try apply a2b_group_1; try apply a2b_group_2.
  rewrite b2a_groups_cons3, <-!app_assoc, a2b_group.
  rewrite IH by lia. reflexivity.
Qed.

Lemma foldr_emit_byte_Ok (data out : bytes) :
  foldr emit_byte (Ok out) data = Ok (data ++ out).
Proof. induction data as [|b data IH]; simpl; [done|]. by rewrite IH. Qed.

Lemma range_step_0 : range_step 0 MAXBINSIZE = [].
Proof. reflexivity. Qed.

Lemma range_step_pos (n : nat) :
  0 < n →
  range_step n MAXBINSIZE
  = 0 :: ((λ i, MAXBINSIZE + i) <$> range_step (n - MAXBINSIZE) MAXBINSIZE).
Proof.
  intros Hn. unfold range_step, MAXBINSIZE.
  assert ((n + 57 - 1) / 57 = S ((n - 57 + 57 - 1) / 57)) as ->.
  { destruct (decide (n ≤ 57)) as [Hle|Hgt].
    - replace (n - 57 + 57 - 1) with 56 by lia.
      rewrite (Nat.div_small 56 57) by lia.
      symmetry. apply (Nat.div_unique _ _ _ (n - 1)); lia.
    - replace (n + 57 - 1) with ((n - 57 + 57 - 1) + 1 * 57) by lia.
      rewrite Nat.div_add by lia. lia. }
  cbn [seq fmap list_fmap]. f_equal.
  rewrite <-seq_shift, <-!list_fmap_compose. apply list_fmap_ext.
  intros _ k _. simpl. lia.
Qed.

Lemma encodebytes_nil : encodebytes [] = [].
Proof. reflexivity. Qed.

Lemma encodebytes_chunk (s : bytes) :
  s ≠ [] →
  encodebytes s = b2a_base64 (take MAXBINSIZE s) ++ encodebytes (drop MAXBINSIZE s).
Proof.
  intros Hs. unfold encodebytes.
  rewrite range_step_pos by (destruct s; simpl; [done|lia]).
  cbn [fmap list_fmap concat]. rewrite drop_0. f_equal.
  rewrite length_drop, <-list_fmap_compose. f_equal.
  apply list_fmap_ext. intros _ i _. simpl. by rewrite drop_drop.
Qed.

(** [base64.decodebytes(base64.encodebytes(s)) == s] *)
Lemma decodebytes_encodebytes (s : bytes) : decodebytes (encodebytes s) = Ok s.
Proof.
  unfold decodebytes, a2b_base64.
  remember (length s) as n eqn:Hn. revert s Hn.
  induction n as [n IH] using lt_wf_ind. intros s Hn.
  destruct (decide (s = [])) as [->|Hs]; [reflexivity|].
  rewrite encodebytes_chunk by done.
  destruct (decide (length s ≤ MAXBINSIZE)) as [Hle|Hgt].
  - rewrite take_ge, drop_ge by done. rewrite encodebytes_nil, app_nil_r.
    apply (a2b_last_line 19). unfold MAXBINSIZE in Hle. lia.
  - rewrite (a2b_full_line 19).
    2:{ rewrite length_take. unfold MAXBINSIZE in *. lia. }
    rewrite (IH (length (drop MAXBINSIZE s))); [| |done].
    2:{ rewrite length_drop. unfold MAXBINSIZE in *. lia. }
    by rewrite foldr_emit_byte_Ok, take_drop.
Qed.

Section serializer_facts.
Context {B : Builtins}.

(** C6: for every value that [pickle] itself encodes and decodes back, the
    default serializer decodes what it encoded to the same value; the base64
    layer on top of the object encoding gives back the very bytes. *)
Theorem PickleSerializer_roundtrip (x : pyval) (blob : bytes) :
  pickle_dumps x = Ok blob →
  pickle_loads blob = Ok x →
  decodebytes (encodebytes blob) = Ok blob
  ∧ dumps PickleSerializer x = Ok (encodebytes blob)
  ∧ loads PickleSerializer (encodebytes blob) = Ok x.
Proof.
  intros Hdumps Hloads. split; [apply decodebytes_encodebytes|].
  simpl. unfold PickleSerializer_dumps, PickleSerializer_loads.
  rewrite Hdumps, decodebytes_encodebytes. simpl. by rewrite Hloads.
Qed.
End serializer_facts.

(** ** The file system *)

Lemma node_at_snoc (fs : gmap path node) (dir : path) (name : string) :
  node_at fs (dir ++ [name]) = fs !! (dir ++ [name]).
Proof. by destruct dir. Qed.

Lemma parent_snoc (dir : path) (name : string) : parent (dir ++ [name]) = dir.
Proof. apply removelast_last. Qed.

Lemma snoc_ne (dir : path) (name : string) : dir ++ [name] ≠ dir.
Proof.
  intros E. apply (f_equal length) in E. rewrite length_app in E. simpl in E. lia.
Qed.

(** A change at an entry file does not change what its directory is. *)
Lemma node_at_insert_snoc (fs : gmap path node) (dir : path) (name : string) (n : node) :
  node_at (<[dir ++ [name] := n]> fs) dir = node_at fs dir.
Proof.
  destruct dir as [|s dir]; [done|]. simpl.
  apply lookup_insert_ne, (snoc_ne (s :: dir)).
Qed.

Lemma node_at_delete_snoc (fs : gmap path node) (dir : path) (name : string) :
  node_at (delete (dir ++ [name]) fs) dir = node_at fs dir.
Proof.
  destruct dir as [|s dir]; [done|]. simpl.
  apply lookup_delete_ne, (snoc_ne (s :: dir)).
Qed.

Lemma invocations_app {U} (w w' : world U) (new : list event) :
  events w' = events w ++ new →
  invocations w' = invocations w + length (filter (λ e, is_call e = true) new).
Proof. intros E. unfold invocations. by rewrite E, filter_app, length_app. Qed.

Section mkdir.
Context {U : Type}.
Implicit Types (w : world U).

(** [mkdir] leaves every directory in place and creates the path asked for. *)
Lemma mkdir_from_dir (segs : list string) : ∀ (pre : path) w w',
  mkdir_from pre segs w = (Ok (), w') →
  node_at (files w) pre = Some Dir →
  (∀ p, node_at (files w) p = Some Dir → node_at (files w') p = Some Dir)
  ∧ node_at (files w') (pre ++ segs) = Some Dir.
Proof.
  induction segs as [|s rest IH]; intros pre w w' Hrun Hpre.
  { simpl in Hrun. unfold mret, M_ret in Hrun. simplify_eq. by rewrite app_nil_r. }
  simpl in Hrun. rewrite (assoc_L (++) pre [s] rest : pre ++ s :: rest = (pre ++ [s]) ++ rest).
  destruct (node_at (files w) (pre ++ [s])) as [[data|]|] eqn:Hq; [done| |].
  - by apply IH.
  - apply IH in Hrun as [Hkeep Hnew].
    + split; [|done]. intros p Hp. apply Hkeep. simpl.
      destruct p as [|s0 p]; [done|]. simpl in Hp |- *.
      rewrite lookup_insert_ne; [done|]. intros E.
      rewrite node_at_snoc, E in Hq. congruence.
    + simpl. rewrite node_at_snoc. apply lookup_insert_eq.
Qed.

Lemma mkdir_parents_exist_ok_dir (p : path) w w' :
  mkdir_parents_exist_ok p w = (Ok (), w') → node_at (files w') p = Some Dir.
Proof. intros Hrun. by apply (mkdir_from_dir p []) in Hrun as [_ ?]. Qed.
End mkdir.

(** ** [read] and [write], case by case *)

Lemma World_eq {U : Type} (fs fs' : gmap path node) (sp sp' : nat) (u u' : U) (ev ev' : list event) :
  fs = fs' → sp = sp' → u = u' → ev = ev' → World fs sp u ev = World fs' sp' u' ev'.
Proof. by intros -> -> -> ->. Qed.

Section read_write.
Context {B : Builtins} {U : Type} {F : Type} `{Named F}.
Implicit Types (self : CacheWrapper) (func : F) (args : list pyval)
  (kwargs : kwargs_t) (w : world U).

(** No entry file: absent. *)
Lemma read_absent self func args kwargs w :
  files w !! cache_file self func args kwargs = None →
  read self func args kwargs w = (Ok PyNone, w).
Proof.
  intros Hf. unfold read, cache_file in *. unfold mbind, M_bind, path_exists.
  by rewrite node_at_snoc, Hf.
Qed.

(** An entry that decodes: its content. *)
Lemma read_hit self func args kwargs w data content :
  files w !! cache_file self func args kwargs = Some (File data) →
  loads (serializer self) data = Ok content →
  read self func args kwargs w
  = (Ok content,
     World (files w) (space w) (user w)
       (events w ++ [EvLog (InfoLoaded (make_key (is_method self) (__name__ func) args kwargs))])).
Proof.
  intros Hf Hl. unfold read, cache_file in *.
  unfold mbind, M_bind, path_exists, try_except, read_bytes, lift.
  rewrite node_at_snoc, Hf. simpl. rewrite node_at_snoc, Hf. simpl. by rewrite Hl.
Qed.

(** An entry that does not decode: it is removed, and the result is absent. *)
Lemma read_corrupted self func args kwargs w data exc :
  files w !! cache_file self func args kwargs = Some (File data) →
  loads (serializer self) data = Raise exc →
  read self func args kwargs w
  = (Ok PyNone,
     World (delete (cache_file self func args kwargs) (files w))
       (space w + length data) (user w)
       (events w ++ [EvUnlink (cache_file self func args kwargs);
                     EvLog (WarnCorrupted exc)])).
Proof.
  intros Hf Hl. unfold read, cache_file in *.
  unfold mbind, M_bind, path_exists, try_except, read_bytes, lift, unlink, log, emit.
  rewrite node_at_snoc, Hf. simpl. rewrite node_at_snoc, Hf. simpl. rewrite Hl. simpl.
  rewrite node_at_snoc, Hf. simpl. by rewrite <-app_assoc.
Qed.

(** A directory where the entry file should be: the removal itself raises. *)
Lemma read_directory self func args kwargs w :
  files w !! cache_file self func args kwargs = Some Dir →
  read self func args kwargs w = (Raise IsADirectoryError, w).
Proof.
  intros Hf. unfold read, cache_file in *.
  unfold mbind, M_bind, path_exists, try_except, read_bytes, lift, unlink.
  rewrite node_at_snoc, Hf. simpl. rewrite node_at_snoc, Hf. simpl.
  by rewrite node_at_snoc, Hf.
Qed.

(** The entry is stored. *)
Lemma write_stored self content func args kwargs w blob :
  node_at (files w) (cache_dir self) = Some Dir →
  files w !! cache_file self func args kwargs ≠ Some Dir →
  dumps (serializer self) content = Ok blob →
  length blob ≤ space w + size_at (files w) (cache_file self func args kwargs) →
  write self content func args kwargs w
  = (Ok (),
     World (<[cache_file self func args kwargs := File blob]> (files w))
       (space w + size_at (files w) (cache_file self func args kwargs) - length blob)
       (user w)
       (events w ++ [EvTruncate (cache_file self func args kwargs);
                     EvWrite (cache_file self func args kwargs) blob;
                     EvLog (InfoSaved (make_key (is_method self) (__name__ func) args kwargs))])).
Proof.
  intros Hdir Hf Hd Hroom. unfold write, size_at, cache_file in *.
  unfold mbind, M_bind, try_except, open_wb, lift, file_write, log, emit.
  rewrite parent_snoc, Hdir, node_at_snoc.
  destruct (files w !! _) as [[old|]|] eqn:Hold; [|done|]; simpl; rewrite Hd; simpl;
    (destruct (decide _) as [_|Hn]; [|lia]); simpl;
    rewrite insert_insert_eq, <-!app_assoc; simpl;
    f_equal; apply World_eq; (done || lia).
Qed.

(** Encoding raises: the file just opened is removed, nothing is raised. *)
Lemma write_dumps_failed self content func args kwargs w exc :
  node_at (files w) (cache_dir self) = Some Dir →
  files w !! cache_file self func args kwargs ≠ Some Dir →
  dumps (serializer self) content = Raise exc →
  write self content func args kwargs w
  = (Ok (),
     World (delete (cache_file self func args kwargs) (files w))
       (space w + size_at (files w) (cache_file self func args kwargs))
       (user w)
       (events w ++ [EvTruncate (cache_file self func args kwargs);
                     EvUnlink (cache_file self func args kwargs);
                     EvLog (InfoWriteFailed exc)])).
Proof.
  intros Hdir Hf Hd. unfold write, size_at, cache_file in *.
  unfold mbind, M_bind, try_except, open_wb, lift, unlink, log, emit.
  rewrite parent_snoc, Hdir, node_at_snoc.
  destruct (files w !! _) as [[old|]|] eqn:Hold; [|done|]; simpl; rewrite Hd; simpl;
    rewrite node_at_snoc, lookup_insert_eq; simpl;
    rewrite delete_insert_eq, <-!app_assoc; simpl;
    f_equal; apply World_eq; (done || lia).
Qed.

(** The device fills up: the partial file is removed, nothing is raised. *)
Lemma write_no_space self content func args kwargs w blob :
  node_at (files w) (cache_dir self) = Some Dir →
  files w !! cache_file self func args kwargs ≠ Some Dir →
  dumps (serializer self) content = Ok blob →
  space w + size_at (files w) (cache_file self func args kwargs) < length blob →
  ∃ partial_blob,
  write self content func args kwargs w
  = (Ok (),
     World (delete (cache_file self func args kwargs) (files w))
       (space w + size_at (files w) (cache_file self func args kwargs))
       (user w)
       (events w ++ [EvTruncate (cache_file self func args kwargs);
                     EvWrite (cache_file self func args kwargs) partial_blob;
                     EvUnlink (cache_file self func args kwargs);
                     EvLog (InfoWriteFailed OSError)])).
Proof.
  intros Hdir Hf Hd Hroom. unfold write, size_at, cache_file in *.
  unfold mbind, M_bind, try_except, open_wb, lift, file_write, unlink, log, emit.
  rewrite parent_snoc, Hdir, node_at_snoc.
  destruct (files w !! _) as [[old|]|] eqn:Hold; [|done|]; simpl; rewrite Hd; simpl;
    (destruct (decide _) as [Hn|_]; [lia|]); simpl;
    rewrite node_at_snoc, lookup_insert_eq; simpl;
    eexists; rewrite insert_insert_eq, delete_insert_eq, <-!app_assoc; simpl;
    f_equal; apply World_eq; try done; rewrite length_take; lia.
Qed.

(** The cache directory is gone: opening raises, and so does the removal. *)
Lemma write_directory_missing self content func args kwargs w :
  node_at (files w) (cache_dir self) = None →
  files w !! cache_file self func args kwargs = None →
  write self content func args kwargs w = (Raise FileNotFoundError, w).
Proof.
  intros Hdir Hf. unfold write, cache_file in *.
  unfold mbind, M_bind, try_except, open_wb, unlink.
  by rewrite parent_snoc, Hdir, node_at_snoc, Hf.
Qed.
End read_write.

Section lookup_and_store.
Context {B : Builtins} {U : Type} {F : Type} `{Named F}.
Implicit Types (self : CacheWrapper) (func : F) (args : list pyval)
  (kwargs : kwargs_t) (w : world U).

(** What a lookup leaves behind: the files as they were, or without the
    entry; the user's state and the number of calls are untouched. *)
Lemma read_frame self func args kwargs w r w' :
  read self func args kwargs w = (r, w') →
  (files w' = files w ∧ space w' = space w
   ∨ r = Ok PyNone
     ∧ files w' = delete (cache_file self func args kwargs) (files w)
     ∧ space w' = space w + size_at (files w) (cache_file self func args kwargs))
  ∧ user w' = user w
  ∧ invocations w' = invocations w.
Proof.
  intros Hr.
  destruct (files w !! cache_file self func args kwargs) as [[data|]|] eqn:Hf.
  - destruct (loads (serializer self) data) as [content|exc] eqn:Hl.
    + rewrite (read_hit _ _ _ _ _ _ _ Hf Hl) in Hr. simplify_eq. simpl.
      split_and!; [by left|done|].
      by erewrite invocations_app by done.
    + rewrite (read_corrupted _ _ _ _ _ _ _ Hf Hl) in Hr. simplify_eq. simpl.
      split_and!; [right; unfold size_at; by rewrite Hf|done|].
      by erewrite invocations_app by done.
  - rewrite (read_directory _ _ _ _ _ Hf) in Hr. simplify_eq. by split_and!; [left|..].
  - rewrite (read_absent _ _ _ _ _ Hf) in Hr. simplify_eq. by split_and!; [left|..].
Qed.

(** With the cache directory in place and no directory in the way, [write]
    raises nothing: the entry ends up holding the encoded content, or it
    is gone. *)
Lemma write_in_directory self content func args kwargs w :
  node_at (files w) (cache_dir self) = Some Dir →
  files w !! cache_file self func args kwargs ≠ Some Dir →
  ∃ w', write self content func args kwargs w = (Ok (), w')
        ∧ user w' = user w
        ∧ invocations w' = invocations w
        ∧ node_at (files w') (cache_dir self) = Some Dir
        ∧ ((∃ blob, dumps (serializer self) content = Ok blob
                    ∧ files w' !! cache_file self func args kwargs = Some (File blob))
           ∨ files w' !! cache_file self func args kwargs = None).
Proof.
  intros Hdir Hf.
  destruct (dumps (serializer self) content) as [blob|exc] eqn:Hd.
  - destruct (decide (length blob
        ≤ space w + size_at (files w) (cache_file self func args kwargs))) as [Hfit|Hbig].
    + eexists. split; [by apply write_stored|]. simpl.
      split_and!; [done|by erewrite invocations_app by done| |].
      * unfold cache_file. by rewrite node_at_insert_snoc.
      * left. exists blob. by rewrite lookup_insert_eq.
    + destruct (write_no_space self content func args kwargs w blob)
        as (partial_blob & ->); [done|done|done|lia|].
      eexists. split; [done|]. simpl.
      split_and!; [done|by erewrite invocations_app by done| |].
      * unfold cache_file. by rewrite node_at_delete_snoc.
      * right. apply lookup_delete_eq.
  - eexists. split; [by apply write_dumps_failed|]. simpl.
    split_and!; [done|by erewrite invocations_app by done| |].
    + unfold cache_file. by rewrite node_at_delete_snoc.
    + right. apply lookup_delete_eq.
Qed.

(** C3: when the entry file exists and its bytes do not decode, [read]
    removes the file and returns the absent result, raising nothing; the
    files are then those of a cache without that entry, and the next [read]
    finds nothing. *)
Theorem read_corrupted_entry self func args kwargs w data exc :
  files w !! cache_file self func args kwargs = Some (File data) →
  loads (serializer self) data = Raise exc →
  ∃ w', read self func args kwargs w = (Ok PyNone, w')
        ∧ files w' = delete (cache_file self func args kwargs) (files w)
        ∧ files w' !! cache_file self func args kwargs = None
        ∧ user w' = user w
        ∧ read self func args kwargs w' = (Ok PyNone, w').
Proof.
  intros Hf Hl. eexists. split; [by apply read_corrupted|]. simpl.
  split_and!; [done|apply lookup_delete_eq|done|].
  apply read_absent. simpl. apply lookup_delete_eq.
Qed.
End lookup_and_store.

(** ** The wrappers for functions *)

Section function_wrappers.
Context {B : Builtins} {U : Type}.
Implicit Types (self : CacheWrapper) (func : function U) (args : list pyval)
  (kwargs : kwargs_t) (w : world U).

Lemma sync_wrapper_unfold self func args kwargs w :
  sync_wrapper self func args kwargs w
  = match read self func args kwargs w with
    | (Raise e, w1) => (Raise e, w1)
    | (Ok hit, w1) =>
        if is_not_None hit then (Ok hit, w1)
        else
          match call func args kwargs w1 with
          | (Raise e, w2) => (Raise e, w2)
          | (Ok content, w2) =>
              match write self content func args kwargs w2 with
              | (Raise e, w3) => (Raise e, w3)
              | (Ok _, w3) => (Ok content, w3)
              end
          end
    end.
Proof.
  unfold sync_wrapper, mbind, M_bind, mret, M_ret.
  destruct (read self func args kwargs w) as [[hit|e] w1]; [|done].
  destruct (is_not_None hit); [done|].
  destruct (call func args kwargs w1) as [[content|e] w2]; [|done].
  by destruct (write self content func args kwargs w2) as [[[]|e] w3].
Qed.

Lemma async_wrapper_sync self func args kwargs w :
  async_wrapper self func args kwargs w = sync_wrapper self func args kwargs w.
Proof. reflexivity. Qed.

Lemma call_unfold func args kwargs w :
  call func args kwargs w
  = ((fn_body func args kwargs (user w)).1,
     World (files w) (space w) (fn_body func args kwargs (user w)).2
       (events w ++ [EvCall (fn_name func) args kwargs])).
Proof. unfold call. by destruct (fn_body func args kwargs (user w)). Qed.

(** C4, what the code does: with the cache directory gone, opening the
    entry file raises, the removal in the handler raises in turn, and the
    exception leaves [write] and the wrapper; the value the function
    returned does not reach the caller. *)
Theorem write_failure_escapes self func args kwargs w v :
  node_at (files w) (cache_dir self) = None →
  files w !! cache_file self func args kwargs = None →
  (fn_body func args kwargs (user w)).1 = Ok v →
  write self v func args kwargs w = (Raise FileNotFoundError, w)
  ∧ ∃ w', sync_wrapper self func args kwargs w = (Raise FileNotFoundError, w')
          ∧ invocations w' = S (invocations w).
Proof.
  intros Hdir Hf Hbody. split; [by apply write_directory_missing|].
  rewrite sync_wrapper_unfold, (read_absent _ _ _ _ _ Hf). simpl.
  rewrite call_unfold, Hbody.
  rewrite write_directory_missing by done.
  eexists. split; [done|]. erewrite invocations_app by done. simpl. lia.
Qed.

(** Calls of a function that returns [None], one after the other: each is
    a miss. *)
Lemma call_repeatedly_None self func args kwargs :
  (∀ u, (fn_body func args kwargs u).1 = Ok PyNone) →
  (∀ blob, dumps (serializer self) PyNone = Ok blob →
           loads (serializer self) blob = Ok PyNone) →
  ∀ n w,
    node_at (files w) (cache_dir self) = Some Dir →
    (files w !! cache_file self func args kwargs = None
     ∨ ∃ data, files w !! cache_file self func args kwargs = Some (File data)
               ∧ loads (serializer self) data = Ok PyNone) →
    ∃ w', call_repeatedly self func args kwargs n w = (replicate n (Ok PyNone), w')
          ∧ invocations w' = invocations w + n.
Proof.
  intros Hfn Hser. induction n as [|n IH]; intros w Hdir Hentry.
  { exists w. split; [done|lia]. }
  assert (∃ w1, read self func args kwargs w = (Ok PyNone, w1)
                ∧ files w1 = files w ∧ user w1 = user w
                ∧ invocations w1 = invocations w) as (w1 & Hread & Hf1 & Hu1 & Hi1).
  { destruct Hentry as [Hf|(data & Hf & Hl)].
    - exists w. by rewrite (read_absent _ _ _ _ _ Hf).
    - eexists. rewrite (read_hit _ _ _ _ _ _ _ Hf Hl). split; [done|]. simpl.
      split_and!; [done|done|]. by erewrite invocations_app by done. }
  destruct (write_in_directory self PyNone func args kwargs
              (World (files w1) (space w1) (fn_body func args kwargs (user w1)).2
                 (events w1 ++ [EvCall (fn_name func) args kwargs])))
    as (w3 & Hwrite & _ & Hi3 & Hdir3 & Hentry3).
  { simpl. by rewrite Hf1. }
  { simpl. rewrite Hf1. by destruct Hentry as [->|(? & -> & _)]. }
  destruct (IH w3) as (w' & Hrest & Hi'); [done| |].
  { destruct Hentry3 as [(blob & Hd & Hf3)|Hf3]; [right|by left].
    exists blob. split; [done|]. by apply Hser. }
  exists w'. simpl. rewrite sync_wrapper_unfold, Hread. simpl.
  rewrite call_unfold, Hfn, Hwrite, Hrest. split; [done|].
  rewrite Hi', Hi3. erewrite (invocations_app w1) by done. simpl. lia.
Qed.

(** C10: a stored [None] cannot be told from no entry: with a valid entry
    holding [None], [read] returns what it returns when there is no entry,
    and every call of a function that returns [None] for these arguments
    goes through the miss branch and calls the function again. *)
Theorem stored_None_is_a_miss self func args kwargs w data :
  node_at (files w) (cache_dir self) = Some Dir →
  files w !! cache_file self func args kwargs = Some (File data) →
  loads (serializer self) data = Ok PyNone →
  (∀ u, (fn_body func args kwargs u).1 = Ok PyNone) →
  (∀ blob, dumps (serializer self) PyNone = Ok blob →
           loads (serializer self) blob = Ok PyNone) →
  (read self func args kwargs w).1 = Ok PyNone
  ∧ (∀ w0 : world U, files w0 !! cache_file self func args kwargs = None →
       (read self func args kwargs w0).1 = (read self func args kwargs w).1)
  ∧ ∀ n, ∃ w',
      call_repeatedly self func args kwargs n w = (replicate n (Ok PyNone), w')
      ∧ invocations w' = invocations w + n.
Proof.
  intros Hdir Hf Hl Hfn Hser.
  rewrite (read_hit _ _ _ _ _ _ _ Hf Hl). simpl. split; [done|]. split.
  - intros w0 Hf0. by rewrite (read_absent _ _ _ _ _ Hf0).
  - intros n. apply call_repeatedly_None; [done|done|done|]. right. by exists data.
Qed.
End function_wrappers.

(** ** The wrappers for generators *)

Section generator_wrappers.
Context {B : Builtins} {U G : Type}.
Implicit Types (self : CacheWrapper) (func : generator_function U G)
  (args : list pyval) (kwargs : kwargs_t) (w : world U) (source : G).

Lemma async_gen_wrapper_sync self func :
  async_gen_wrapper self func = sync_gen_wrapper self func.
Proof. reflexivity. Qed.

Lemma forward_unfold self func args kwargs content source w :
  forward self func args kwargs content source w
  = let w0 := World (files w) (space w) (gen_resume func source (user w)).2 (events w) in
    match (gen_resume func source (user w)).1 with
    | GenYield item source' =>
        (Yield item, Forwarding args kwargs (content ++ [item]) source',
         World (files w) (space w) (user w0) (events w ++ [EvYield item]))
    | GenReturn =>
        match write self (PyList content) func args kwargs w0 with
        | (Ok _, w') => (StopIteration, Finished, w')
        | (Raise e, w') => (Raised e, Finished, w')
        end
    | GenRaise e => (Raised e, Finished, w0)
    end.
Proof.
  unfold forward. by destruct (gen_resume func source (user w)) as [[item source'| |e] u].
Qed.

(** From inside the loop of the miss branch: while the source yields, the
    items pass through and the files stay as they are; the write comes when
    the source returns, with everything that was yielded. *)
Lemma take_items_forwarding self func args kwargs (n : nat) :
  ∀ content source w items ending g' w',
    take_items (sync_gen_wrapper self func) n
      (Forwarding args kwargs content source) w = (items, ending, g', w') →
    match ending with
    | None =>
        length items = n
        ∧ (∃ source', g' = Forwarding args kwargs (content ++ items) source')
        ∧ files w' = files w ∧ space w' = space w
        ∧ events w' = events w ++ (EvYield <$> items)
    | Some StopIteration =>
        ∃ w0, files w0 = files w ∧ space w0 = space w
              ∧ events w0 = events w ++ (EvYield <$> items)
              ∧ write self (PyList (content ++ items)) func args kwargs w0 = (Ok (), w')
    | Some (Raised e) => True
    | Some (Yield _) => False
    end.
Proof.
  induction n as [|n IH]; intros content source w items ending g' w' Hrun.
  { simpl in Hrun. simplify_eq. simpl. rewrite !app_nil_r. eauto 10. }
  simpl in Hrun. rewrite forward_unfold in Hrun. simpl in Hrun.
  destruct (gen_resume func source (user w)) as [[item source'| |e] u]; simpl in Hrun.
  - destruct (take_items _ n _ _) as [[[items0 ending0] g0] w0] eqn:Hrest.
    simplify_eq. apply IH in Hrest. simpl in Hrest.
    destruct ending as [[item'| |e]|]; try done.
    + destruct Hrest as (w0 & Hf & Hs & He & Hw). exists w0.
      rewrite <-app_assoc in Hw. rewrite <-app_assoc in He. done.
    + destruct Hrest as (Hlen & (source'' & ->) & Hf & Hs & He).
      rewrite <-app_assoc in He. simpl. rewrite <-app_assoc. eauto 10.
  - destruct (write _ _ _ _ _ _) as [[[]|e] w0] eqn:Hw; simplify_eq; [|done].
    simpl. eexists. rewrite !app_nil_r. split_and!; [..|exact Hw]; done.
  - by simplify_eq.
Qed.
End generator_wrappers.

Section generator_runs.
Context {B : Builtins} {U G : Type}.
Implicit Types (self : CacheWrapper) (func : generator_function U G)
  (args : list pyval) (kwargs : kwargs_t) (w : world U) (source : G).

Lemma filter_is_call_yields (items : list pyval) :
  filter (λ e, is_call e = true) (EvYield <$> items) = [].
Proof.
  induction items as [|item items IH]; [done|].
  simpl. by rewrite filter_cons_False.
Qed.

Lemma take_items_S (next : gen_state G → world U → next_outcome * gen_state G * world U)
    (n : nat) (g : gen_state G) w :
  take_items next (S n) g w
  = match next g w with
    | (Yield item, g', w') =>
        let '(items, ending, g'', w'') := take_items next n g' w' in
        (item :: items, ending, g'', w'')
    | (ending, g', w') => ([], Some ending, g', w')
    end.
Proof. reflexivity. Qed.
End generator_runs.

(** ** The decorator *)

Section decorator.
Context {B : Builtins} {U G : Type}.
Implicit Types (fn : callable U G) (w : world U).

Lemma init_serializer (cache_dir' namespace : option string) (is_method' : bool)
    (serializer' : option Serializer) w (self : CacheWrapper) w' :
  __init__ cache_dir' namespace is_method' serializer' w = (Ok self, w') →
  serializer self = default PickleSerializer serializer'.
Proof.
  unfold __init__, mbind, M_bind, mret, M_ret, raise.
  destruct cache_dir' as [s|]; [|done].
  destruct (mkdir_parents_exist_ok _ w) as [[[]|e] w0]; [|done].
  intros ?. by simplify_eq.
Qed.

Lemma wrapped_self_call (self : CacheWrapper) fn :
  wrapped_self (__call__ (U:=U) (G:=G) self fn) = self.
Proof. by destruct fn. Qed.

(** Once the wrapping is established, the cache directory exists. *)
Lemma init_cache_dir (cache_dir' namespace : option string) (is_method' : bool)
    (serializer' : option Serializer) w (self : CacheWrapper) w' :
  __init__ cache_dir' namespace is_method' serializer' w = (Ok self, w') →
  node_at (files w') (cache_dir self) = Some Dir.
Proof.
  unfold __init__, mbind, M_bind, mret, M_ret, raise.
  destruct cache_dir' as [s|]; [|done].
  destruct (mkdir_parents_exist_ok _ w) as [[[]|e] w0] eqn:Hmk; [|done].
  intros ?. simplify_eq. simpl. by apply mkdir_parents_exist_ok_dir in Hmk.
Qed.

(** With a directory given, the wrapping fails only if [mkdir] does. *)
Lemma init_raises (dir : string) (namespace : option string) (is_method' : bool)
    (serializer' : option Serializer) w e w' :
  __init__ (Some dir) namespace is_method' serializer' w = (Raise e, w') →
  ∃ p, mkdir_parents_exist_ok p w = (Raise e, w').
Proof.
  unfold __init__, mbind, M_bind, mret, M_ret, raise.
  destruct (mkdir_parents_exist_ok _ w) as [[[]|e0] w0] eqn:Hmk; [done|].
  intros ?. simplify_eq. eauto.
Qed.

(** C7, what the code does: applied bare, the decorator passes no
    directory on, [Path(None)] raises [TypeError], and no wrapping is
    established, whatever the file system allows. *)
Theorem cache_bare_raises fn w :
  cache (Some fn) None None false None w = (Raise TypeError, w).
Proof. reflexivity. Qed.

(** C8, what the code does: the partial object that the decorator returns
    when called with keywords does not hold the serializer, so the wrapping
    established through it encodes and decodes with the default one. *)
Theorem serializer_override_dropped
    (cache_dir' namespace : option string) (is_method' : bool) (override : Serializer)
    fn w w' w0 w1 (p : partial) (wrapper : wrapped) :
  cache (U:=U) (G:=G) None cache_dir' namespace is_method' (Some override) w
    = (Ok (Partial p), w') →
  partial_call p fn w0 = (Ok (Wrapped wrapper), w1) →
  serializer (wrapped_self wrapper) = PickleSerializer
  ∧ partial_call p fn w0 = cache (Some fn) cache_dir' namespace is_method' None w0.
Proof.
  intros Hpartial Hcall. unfold cache in Hpartial at 1. simpl in Hpartial.
  unfold mret, M_ret in Hpartial. simplify_eq.
  split; [|done].
  unfold partial_call, cache, mbind, M_bind, mret, M_ret in Hcall. simpl in Hcall.
  destruct (__init__ _ _ _ _ _) as [[self|e] w2] eqn:Hinit; [|done].
  simplify_eq. rewrite wrapped_self_call.
  by rewrite (init_serializer _ _ _ _ _ _ _ Hinit).
Qed.

(** Given directly with the function, the override is used. *)
Lemma serializer_override_direct
    (cache_dir' namespace : option string) (is_method' : bool) (override : Serializer)
    fn w w1 (wrapper : wrapped) :
  cache (Some fn) cache_dir' namespace is_method' (Some override) w
    = (Ok (Wrapped wrapper), w1) →
  serializer (wrapped_self wrapper) = override.
Proof.
  unfold cache, mbind, M_bind, mret, M_ret.
  destruct (__init__ _ _ _ _ _) as [[self|e] w2] eqn:Hinit; [|done].
  intros ?. simplify_eq. rewrite wrapped_self_call.
  by rewrite (init_serializer _ _ _ _ _ _ _ Hinit).
Qed.
End decorator.

(** ** The theorems at the sample programs *)

(** C1 as stated fails: a function that returns [None] is called by each of
    two calls with the same arguments. *)
Lemma sync_wrapper_None_called_twice :
  let first := sync_wrapper (B:=sample_builtins) sample_self sample_fn_none [PyInt 3] ∅
                 sample_world in
  let second := sync_wrapper (B:=sample_builtins) sample_self sample_fn_none [PyInt 3] ∅
                  first.2 in
  ¬ (invocations second.2 ≤ S (invocations sample_world) ∧ second.1 = first.1).
Proof.
  intros first second [Hle _].
  assert (invocations second.2 = 2) as E by (vm_compute; reflexivity).
  assert (invocations sample_world = 0) as E0 by reflexivity.
  rewrite E, E0 in Hle. lia.
Qed.

(** So does a function whose result the serializer cannot encode. *)
Example sync_wrapper_unpicklable_called_twice :
  let first := sync_wrapper (B:=sample_builtins) sample_self sample_fn_object [PyInt 3] ∅
                 sample_world in
  let second := sync_wrapper (B:=sample_builtins) sample_self sample_fn_object [PyInt 3] ∅
                  first.2 in
  first.1 = Ok (PyObject "object" 1) ∧ second.1 = first.1
  ∧ invocations second.2 = 2.
Proof. vm_compute. done. Qed.

(** And so does any function when the device has no room for the entry. *)
Example sync_wrapper_full_device_called_twice :
  let first := sync_wrapper (B:=sample_builtins) sample_self sample_fn [PyInt 3] ∅
                 sample_world_full in
  let second := sync_wrapper (B:=sample_builtins) sample_self sample_fn [PyInt 3] ∅
                  first.2 in
  first.1 = Ok (PyInt 4) ∧ second.1 = first.1 ∧ invocations second.2 = 2.
Proof. vm_compute. done. Qed.

Lemma PickleSerializer_roundtrip_witness :
  decodebytes (encodebytes [x4c; x03; x04; x05]) = Ok [x4c; x03; x04; x05]
  ∧ dumps (PickleSerializer (B:=sample_builtins)) (PyList [PyInt 3; PyInt 4; PyInt 5])
    = Ok (encodebytes [x4c; x03; x04; x05])
  ∧ loads (PickleSerializer (B:=sample_builtins)) (encodebytes [x4c; x03; x04; x05])
    = Ok (PyList [PyInt 3; PyInt 4; PyInt 5]).
Proof.
  apply (PickleSerializer_roundtrip (B:=sample_builtins)); reflexivity.
Defined.

Lemma read_corrupted_entry_witness :
  ∃ w',
    read (B:=sample_builtins) sample_self sample_fn [PyInt 3] ∅ sample_world_corrupted
    = (Ok PyNone, w')
    ∧ files w' = delete (cache_file (B:=sample_builtins) sample_self sample_fn [PyInt 3] ∅)
                   (files sample_world_corrupted)
    ∧ files w' !! cache_file (B:=sample_builtins) sample_self sample_fn [PyInt 3] ∅ = None
    ∧ user w' = user sample_world_corrupted
    ∧ read (B:=sample_builtins) sample_self sample_fn [PyInt 3] ∅ w' = (Ok PyNone, w').
Proof.
  apply (read_corrupted_entry (B:=sample_builtins) sample_self sample_fn [PyInt 3] ∅
           sample_world_corrupted [x21] (Error "UnpicklingError")).
  - vm_compute. reflexivity.
  - reflexivity.
Defined.

Lemma write_failure_escapes_witness :
  write (B:=sample_builtins) sample_self (PyInt 4) sample_fn [PyInt 3] ∅ sample_world_no_dir
  = (Raise FileNotFoundError, sample_world_no_dir)
  ∧ ∃ w',
      sync_wrapper (B:=sample_builtins) sample_self sample_fn [PyInt 3] ∅ sample_world_no_dir
      = (Raise FileNotFoundError, w')
      ∧ invocations w' = S (invocations sample_world_no_dir).
Proof.
  apply (write_failure_escapes (B:=sample_builtins) sample_self sample_fn [PyInt 3] ∅
           sample_world_no_dir (PyInt 4)).
  - reflexivity.
  - vm_compute. reflexivity.
  - reflexivity.
Defined.

Lemma stored_None_is_a_miss_witness :
  (read (B:=sample_builtins) sample_self sample_fn_none [PyInt 3] ∅ sample_world_None).1
  = Ok PyNone
  ∧ (∀ w0 : world nat,
       files w0 !! cache_file (B:=sample_builtins) sample_self sample_fn_none [PyInt 3] ∅ = None →
       (read (B:=sample_builtins) sample_self sample_fn_none [PyInt 3] ∅ w0).1
       = (read (B:=sample_builtins) sample_self sample_fn_none [PyInt 3] ∅ sample_world_None).1)
  ∧ ∀ n, ∃ w',
      call_repeatedly (B:=sample_builtins) sample_self sample_fn_none [PyInt 3] ∅ n
        sample_world_None
      = (replicate n (Ok PyNone), w')
      ∧ invocations w' = invocations sample_world_None + n.
Proof.
  apply (stored_None_is_a_miss (B:=sample_builtins) sample_self sample_fn_none [PyInt 3] ∅
           sample_world_None (encodebytes [x4e])).
  - reflexivity.
  - vm_compute. reflexivity.
  - reflexivity.
  - intros u. reflexivity.
  - intros blob Hblob. vm_compute in Hblob. injection Hblob as <-. reflexivity.
Defined.

Lemma serializer_override_dropped_witness :
  serializer (wrapped_self (U:=nat) (G:=Z * nat)
    (SyncWrapped {| is_method := false; cache_dir := ["cache"];
                    serializer := PickleSerializer (B:=sample_builtins) |} sample_fn))
  = PickleSerializer (B:=sample_builtins)
  ∧ partial_call (B:=sample_builtins) (U:=nat) (G:=Z * nat)
      {| partial_cache_dir := Some "cache"; partial_namespace := None;
         partial_is_method := false |}
      (PlainFunction sample_fn) sample_world
    = cache (B:=sample_builtins) (Some (PlainFunction sample_fn)) (Some "cache") None false
        None sample_world.
Proof.
  apply (serializer_override_dropped (B:=sample_builtins) (U:=nat) (G:=Z * nat)
           (Some "cache") None false sample_raw_serializer (PlainFunction sample_fn)
           sample_world sample_world sample_world sample_world).
  - reflexivity.
  - vm_compute. reflexivity.
Defined.

(** The override given with parentheses is lost: the entry is written in
    the default encoding, not in the serializer's own. *)
Example serializer_override_lost :
  ∃ p wrapper w1,
    cache (B:=sample_builtins) (U:=nat) (G:=Z * nat) None (Some "cache") None false
      (Some sample_raw_serializer) sample_world = (Ok (Partial p), sample_world)
    ∧ partial_call (B:=sample_builtins) p (PlainFunction sample_fn) sample_world
      = (Ok (Wrapped wrapper), w1)
    ∧ dumps (serializer (wrapped_self (U:=nat) (G:=Z * nat) wrapper)) (PyInt 4)
      = Ok (encodebytes [x49; x04])
    ∧ dumps sample_raw_serializer (PyInt 4) = Ok [x49; x04].
Proof. eexists _, _, _. split_and!; reflexivity. Qed.

(** ** The scenarios of [tests/test_cache.py] *)

(** [test_cache_sync_func] and [test_cache_async_func]: both calls give 4
    and [n_calls] is 1. *)
Example test_cache_sync_func :
  let first := sync_wrapper (B:=sample_builtins) sample_self sample_fn [PyInt 3] ∅
                 sample_world in
  let second := sync_wrapper (B:=sample_builtins) sample_self sample_fn [PyInt 3] ∅
                  first.2 in
  first.1 = Ok (PyInt 4) ∧ second.1 = Ok (PyInt 4) ∧ user second.2 = 1.
Proof. vm_compute. done. Qed.

Example test_cache_async_func :
  let first := async_wrapper (B:=sample_builtins) sample_self sample_fn [PyInt 3] ∅
                 sample_world in
  let second := async_wrapper (B:=sample_builtins) sample_self sample_fn [PyInt 3] ∅
                  first.2 in
  first.1 = Ok (PyInt 4) ∧ second.1 = Ok (PyInt 4) ∧ user second.2 = 1.
Proof. vm_compute. done. Qed.

(** [test_cache_sync_gen] and [test_cache_async_gen]: both iterations give
    3, 4, 5 and [n_calls] is 1. *)
Example test_cache_sync_gen :
  let first := take_items (sync_gen_wrapper (B:=sample_builtins) sample_self sample_gen) 4
                 (Created [PyInt 3] ∅) sample_world in
  let second := take_items (sync_gen_wrapper (B:=sample_builtins) sample_self sample_gen) 4
                  (Created [PyInt 3] ∅) first.2 in
  first.1.1 = ([PyInt 3; PyInt 4; PyInt 5], Some StopIteration)
  ∧ second.1.1 = ([PyInt 3; PyInt 4; PyInt 5], Some StopIteration)
  ∧ user second.2 = 1.
Proof. vm_compute. done. Qed.

Example test_cache_async_gen :
  let first := take_items (async_gen_wrapper (B:=sample_builtins) sample_self sample_gen) 4
                 (Created [PyInt 3] ∅) sample_world in
  let second := take_items (async_gen_wrapper (B:=sample_builtins) sample_self sample_gen) 4
                  (Created [PyInt 3] ∅) first.2 in
  first.1.1 = ([PyInt 3; PyInt 4; PyInt 5], Some StopIteration)
  ∧ second.1.1 = ([PyInt 3; PyInt 4; PyInt 5], Some StopIteration)
  ∧ user second.2 = 1.
Proof. vm_compute. done. Qed.

(** A dotted namespace becomes nested directories under the cache directory. *)
Example namespace_directories :
  ∃ self w,
    __init__ (B:=sample_builtins) (Some "cache") (Some "a.b") false None sample_world
    = (Ok self, w)
    ∧ cache_dir self = ["cache"; "a"; "b"]
    ∧ files w !! ["cache"; "a"] = Some Dir
    ∧ files w !! ["cache"; "a"; "b"] = Some Dir.
Proof. eexists _, _. split; [vm_compute; reflexivity|]. by vm_compute. Qed.

(** The bound-method scenario: two receivers, one key. *)
Example method_receivers_share_key :
  make_key (B:=sample_builtins) true "fn" [PyObject "C" 1; PyInt 3] ∅ = "fn:3"
  ∧ make_key (B:=sample_builtins) true "fn" [PyObject "C" 2; PyInt 3] ∅ = "fn:3".
Proof. vm_compute. done. Qed.

(** Keyword arguments enter the key in the order of their names. *)
Example make_key_keywords :
  make_key (B:=sample_builtins) false "fn" [PyInt 3; PyInt (-12)]
    (<["b" := PyInt 2]> (<["a" := PyStr "x"]> ∅)) = "fn:3_-12:a=x_b=2".
Proof. vm_compute. reflexivity. Qed.

(** Base64 as the standard module produces it. *)
Example encodebytes_sample :
  encodebytes (String.list_byte_of_string "ab") = [x59; x57; x49; x3d; x0a].
Proof. reflexivity. Qed.

Example decodebytes_skips_newlines :
  decodebytes [x59; x57; x0a; x49; x3d; x0a] = Ok (String.list_byte_of_string "ab").
Proof. reflexivity. Qed.

Example decodebytes_truncated :
  decodebytes [x59; x57; x49] = Raise (Error "binascii.Error").
Proof. reflexivity. Qed.

(** * Further properties of the code *)

(** ** Storing and looking up *)

Section store_and_lookup.
Context {B : Builtins} {U : Type} {F : Type} `{Named F}.
Implicit Types (self : CacheWrapper) (func : F) (args : list pyval)
  (kwargs : kwargs_t) (w : world U).

(** Whatever [write] does, it touches no file but the entry file, and
    neither the user's state nor the number of calls. *)
Lemma write_frame self content func args kwargs w r w' :
  write self content func args kwargs w = (r, w') →
  user w' = user w
  ∧ invocations w' = invocations w
  ∧ ∀ q, q ≠ cache_file self func args kwargs → files w' !! q = files w !! q.
Proof.
  unfold write, cache_file.
  unfold mbind, M_bind, try_except, open_wb, lift, file_write, unlink, log, emit.
  rewrite parent_snoc, !node_at_snoc.
  intros Hrun.
  repeat match type of Hrun with
         | context [match ?x with _ => _ end] =>
             lazymatch x with
             | context [match _ with _ => _ end] => fail
             | _ => destruct x eqn:?; simpl in Hrun; rewrite ?node_at_snoc in Hrun
             end
         end;
    simplify_eq; simpl;
    (split; [done|]);
    (split; [unfold invocations; simpl; rewrite ?filter_app, ?length_app; simpl; lia|]);
    intros q Hq;
    rewrite ?lookup_delete_ne, ?lookup_insert_ne by done; done.
Qed.


(** X1: what [write] stored, [read] gives back: with the cache directory
    in place, room on the device and a serializer that decodes its own
    encoding of the content, [write] followed by [read] returns the content
    (a [None] included), and the entry file holds the encoded bytes. *)
Theorem write_then_read self content func args kwargs w blob :
  node_at (files w) (cache_dir self) = Some Dir →
  files w !! cache_file self func args kwargs ≠ Some Dir →
  dumps (serializer self) content = Ok blob →
  loads (serializer self) blob = Ok content →
  length blob ≤ space w + size_at (files w) (cache_file self func args kwargs) →
  ∃ w1 w2,
    write self content func args kwargs w = (Ok (), w1)
    ∧ read self func args kwargs w1 = (Ok content, w2)
    ∧ files w2 = <[cache_file self func args kwargs := File blob]> (files w)
    ∧ user w2 = user w.
Proof.
  intros Hdir Hf Hd Hl Hroom.
  eexists _, _. split; [by apply write_stored|].
  split; [apply (read_hit _ _ _ _ _ blob); [apply lookup_insert_eq|done]|].
  done.
Qed.

End store_and_lookup.

(** ** One call of a wrapped function *)

Section one_call.
Context {B : Builtins} {U : Type}.
Implicit Types (self : CacheWrapper) (func : function U) (args : list pyval)
  (kwargs : kwargs_t) (w : world U).

(** X7: a result that cannot be stored (the serializer raises on it, or
    the device has no room) is returned all the same: the function is
    called once, no entry file is left, and the files are as before. *)
Theorem unstorable_result_returned self func args kwargs w v :
  node_at (files w) (cache_dir self) = Some Dir →
  files w !! cache_file self func args kwargs = None →
  (fn_body func args kwargs (user w)).1 = Ok v →
  ((∃ exc, dumps (serializer self) v = Raise exc)
   ∨ (∃ blob, dumps (serializer self) v = Ok blob ∧ space w < length blob)) →
  ∃ w', sync_wrapper self func args kwargs w = (Ok v, w')
        ∧ files w' = files w
        ∧ space w' = space w
        ∧ invocations w' = S (invocations w).
Proof.
  intros Hdir Hf Hbody Hcannot.
  rewrite sync_wrapper_unfold, (read_absent _ _ _ _ _ Hf). simpl.
  rewrite call_unfold, Hbody.
  match goal with |- context [write self v func args kwargs ?w2] => set (wc := w2) end.
  assert (size_at (files w) (cache_file self func args kwargs) = 0) as Hsize.
  { unfold size_at. by rewrite Hf. }
  assert (invocations wc = S (invocations w)) as Hic.
  { erewrite (invocations_app w wc) by done. simpl. lia. }
  destruct Hcannot as [(exc & Hd)|(blob & Hd & Hbig)].
  - rewrite (write_dumps_failed self v func args kwargs wc exc); [|done|by simpl; rewrite Hf|done].
    eexists. split; [done|]. simpl. rewrite Hsize, (delete_id _ _ Hf).
    split_and!; try done; try lia.
    erewrite invocations_app; [|simpl; by rewrite <-app_assoc]. simpl. lia.
  - destruct (write_no_space self v func args kwargs wc blob) as (pb & ->);
      [done|by simpl; rewrite Hf|done|simpl; rewrite Hsize; lia|].
    eexists. split; [done|]. simpl. rewrite Hsize, (delete_id _ _ Hf).
    split_and!; try done; try lia.
    erewrite invocations_app; [|simpl; by rewrite <-app_assoc]. simpl. lia.
Qed.
End one_call.

(** ** Keys *)

Lemma concat_cons2 (sep x y : string) (l : list string) :
  String.concat sep (x :: y :: l) = x +:+ sep +:+ String.concat sep (y :: l).
Proof. reflexivity. Qed.

Lemma string_app_assoc (a b c : string) : (a +:+ b) +:+ c = a +:+ (b +:+ c).
Proof.
  induction a as [|x a IH]; [done|].
  change (String x ((a +:+ b) +:+ c) = String x (a +:+ (b +:+ c))). by rewrite IH.
Qed.

Lemma sorted_singleton (kv : string * pyval) : sorted [kv] = [kv].
Proof. reflexivity. Qed.

Section key_facts.
Context {B : Builtins}.

(** X8: the key does not tell texts apart that look the same once joined:
    when [str] of a string is the string itself, two positional arguments
    collide with the one string made of their texts around an underscore,
    and a keyword argument collides with the positional string [key=value]. *)
Theorem make_key_collisions (func_name : string) (a b : pyval) (rest : list pyval)
    (kwargs : kwargs_t) (k : string) (v : pyval) :
  (∀ s, str (PyStr s) = s) →
  make_key false func_name (a :: b :: rest) kwargs
  = make_key false func_name (PyStr (str a +:+ "_" +:+ str b) :: rest) kwargs
  ∧ make_key false func_name [PyStr (k +:+ "=" +:+ str v)] ∅
    = make_key false func_name [] {[ k := v ]}.
Proof.
  intros Hstr. split.
  - unfold make_key. do 3 f_equal. f_equal. unfold join. cbn [fmap list_fmap].
    rewrite Hstr, concat_cons2.
    destruct rest as [|c rest]; [done|].
    cbn [fmap list_fmap]. rewrite !concat_cons2. by rewrite !string_app_assoc.
  - unfold make_key. f_equal.
    rewrite map_to_list_empty, map_to_list_singleton, sorted_singleton.
    change (sorted []) with (@nil (string * pyval)).
    unfold format_item. cbn [fmap list_fmap fst snd]. rewrite Hstr.
    assert (∃ c s, k +:+ "=" +:+ str v = String c s) as (c & s & ->).
    { destruct k; simpl; eauto. }
    by destruct func_name.
Qed.

End key_facts.

(** ** Establishing the wrapping *)

Section directories.
Context {U : Type}.
Implicit Types (w : world U).

(** [mkdir] creates directories at free paths only: what was there stays,
    and neither the space nor the user's state changes. *)
Lemma mkdir_from_preserves (segs : list string) : ∀ (pre : path) w r w',
  mkdir_from pre segs w = (r, w') →
  (∀ p n, files w !! p = Some n → files w' !! p = Some n)
  ∧ space w' = space w ∧ user w' = user w
  ∧ invocations w' = invocations w.
Proof.
  induction segs as [|s rest IH]; intros pre w r w' Hrun.
  { simpl in Hrun. unfold mret, M_ret in Hrun. by simplify_eq. }
  simpl in Hrun. rewrite node_at_snoc in Hrun.
  destruct (files w !! (pre ++ [s])) as [[data|]|] eqn:Hq.
  - by simplify_eq.
  - by apply IH in Hrun.
  - apply IH in Hrun as (Hkeep & Hsp & Hu & Hi). simpl in *.
    split_and!; [|done|done|].
    + intros p n Hp. apply Hkeep. rewrite lookup_insert_ne; [done|congruence].
    + rewrite Hi. unfold invocations. simpl. rewrite filter_app, length_app. simpl. lia.
Qed.

(** Once the path exists, [mkdir] has nothing left to do. *)
Lemma mkdir_from_again (segs : list string) : ∀ (pre : path) w w',
  mkdir_from pre segs w = (Ok (), w') →
  mkdir_from pre segs w' = (Ok (), w').
Proof.
  induction segs as [|s rest IH]; intros pre w w' Hrun; [done|].
  simpl in Hrun |- *. rewrite node_at_snoc in Hrun |- *.
  destruct (files w !! (pre ++ [s])) as [[data|]|] eqn:Hq; [done| |].
  - destruct (mkdir_from_preserves _ _ _ _ _ Hrun) as (Hkeep & _).
    rewrite (Hkeep _ _ Hq). by eapply IH.
  - destruct (mkdir_from_preserves _ _ _ _ _ Hrun) as (Hkeep & _).
    rewrite (Hkeep (pre ++ [s]) Dir) by (simpl; apply lookup_insert_eq).
    by eapply IH.
Qed.

(** A file where the directory should be, below directories: [mkdir]
    raises [FileExistsError] and changes nothing. *)
Lemma mkdir_from_file_exists (segs : list string) : ∀ (pre : path) w data,
  segs ≠ [] →
  files w !! (pre ++ segs) = Some (File data) →
  (∀ k, 0 < k < length segs → files w !! (pre ++ take k segs) = Some Dir) →
  mkdir_from pre segs w = (Raise FileExistsError, w).
Proof.
  induction segs as [|s rest IH]; intros pre w data Hne Hfile Hdirs; [done|].
  simpl. rewrite node_at_snoc.
  destruct rest as [|s' rest].
  - by rewrite Hfile.
  - pose proof (Hdirs 1 ltac:(simpl; lia)) as H1. simpl in H1. rewrite H1.
    apply (IH (pre ++ [s]) w data); [done|by rewrite <-app_assoc|].
    intros k Hk. rewrite <-app_assoc. apply (Hdirs (S k)). simpl in *. lia.
Qed.
End directories.

Section establishing.
Context {B : Builtins} {U G : Type}.
Implicit Types (fn : callable U G) (w : world U).

(** X10: when [CacheWrapper] is constructed without error, its cache
    directory exists, every file and directory that was there is still
    there, the flag and the serializer are the ones given (the default one
    if none), and constructing it again changes nothing. *)
Theorem init_establishes_directory (cache_dir' namespace : option string)
    (is_method' : bool) (serializer' : option Serializer) w (self : CacheWrapper) w' :
  __init__ cache_dir' namespace is_method' serializer' w = (Ok self, w') →
  node_at (files w') (cache_dir self) = Some Dir
  ∧ (∀ p n, files w !! p = Some n → files w' !! p = Some n)
  ∧ space w' = space w ∧ user w' = user w
  ∧ is_method self = is_method'
  ∧ serializer self = default PickleSerializer serializer'
  ∧ __init__ cache_dir' namespace is_method' serializer' w' = (Ok self, w').
Proof.
  intros Hinit.
  pose proof (init_cache_dir _ _ _ _ _ _ _ Hinit) as Hdir.
  pose proof (init_serializer _ _ _ _ _ _ _ Hinit) as Hser.
  revert Hinit. unfold __init__, mbind, M_bind, mret, M_ret, raise.
  destruct cache_dir' as [s|]; [|done].
  destruct (mkdir_parents_exist_ok _ w) as [[[]|e] w0] eqn:Hmk; [|done].
  intros ?. simplify_eq.
  destruct (mkdir_from_preserves _ _ _ _ _ Hmk) as (Hkeep & Hsp & Hu & _).
  split_and!; try done.
  unfold mkdir_parents_exist_ok in *. by rewrite (mkdir_from_again _ _ _ _ Hmk).
Qed.

(** X11: when a file stands where the cache directory should be (below
    existing directories), the decorator raises [FileExistsError], creates
    nothing and wraps nothing. *)
Theorem cache_file_in_the_way fn (dir : string) (is_method' : bool)
    (serializer' : option Serializer) w data :
  Path dir ≠ [] →
  files w !! Path dir = Some (File data) →
  (∀ k, 0 < k < length (Path dir) → files w !! take k (Path dir) = Some Dir) →
  cache (Some fn) (Some dir) None is_method' serializer' w = (Raise FileExistsError, w).
Proof.
  intros Hne Hfile Hdirs.
  unfold cache, __init__, mbind, M_bind, mret, M_ret, mkdir_parents_exist_ok.
  by rewrite (mkdir_from_file_exists (Path dir) [] w data).
Qed.
End establishing.

(** ** Namespaces *)

Lemma split_no_sep (c : ascii) (s : string) :
  c ∉ String.list_ascii_of_string s → split c s = [s].
Proof.
  induction s as [|a s IH]; intros Hc; [done|].
  simpl in Hc |- *. apply not_elem_of_cons in Hc as [Hne Hc].
  destruct (Ascii.eqb a c) eqn:E; [by apply Ascii.eqb_eq in E; subst|].
  by rewrite IH.
Qed.

Lemma split_app_sep (c : ascii) (s t : string) :
  c ∉ String.list_ascii_of_string s →
  split c (s +:+ String c t) = s :: split c t.
Proof.
  induction s as [|a s IH]; intros Hc.
  - simpl. by rewrite Ascii.eqb_refl.
  - simpl in Hc. apply not_elem_of_cons in Hc as [Hne Hc].
    change (String a s +:+ String c t) with (String a (s +:+ String c t)).
    cbn [split]. destruct (Ascii.eqb a c) eqn:E; [by apply Ascii.eqb_eq in E; subst|].
    by rewrite IH.
Qed.

(** Splitting at the dots what was joined by dots gives the segments back. *)
Lemma split_concat (c : ascii) (segs : list string) :
  segs ≠ [] →
  Forall (λ seg, c ∉ String.list_ascii_of_string seg) segs →
  split c (String.concat (String c EmptyString) segs) = segs.
Proof.
  induction segs as [|seg segs IH]; intros Hne Hall; [done|].
  apply Forall_cons in Hall as [Hseg Hall].
  destruct segs as [|seg' segs]; [by apply split_no_sep|].
  rewrite concat_cons2.
  change (seg +:+ String c EmptyString +:+ ?s) with (seg +:+ String c s).
  rewrite split_app_sep by done. f_equal. by apply IH.
Qed.

Lemma Path_segment (seg : string) :
  seg ≠ "" → "."%char ∉ String.list_ascii_of_string seg →
  "/"%char ∉ String.list_ascii_of_string seg →
  Path seg = [seg].
Proof.
  intros Hne Hdot Hslash. unfold Path. rewrite split_no_sep by done.
  rewrite filter_cons_True; [done|]. split; [done|].
  intros ->. apply Hdot. simpl. left.
Qed.

Section directories_of_namespace.
Context {U : Type}.
Implicit Types (w : world U).

(** After [mkdir], every directory on the way exists. *)
Lemma mkdir_from_prefixes (segs : list string) : ∀ (pre : path) w w' (k : nat),
  mkdir_from pre segs w = (Ok (), w') →
  node_at (files w) pre = Some Dir →
  k ≤ length segs →
  node_at (files w') (pre ++ take k segs) = Some Dir.
Proof.
  induction segs as [|s rest IH]; intros pre w w' k Hrun Hpre Hk.
  { rewrite take_nil, app_nil_r. by apply (mkdir_from_dir [] pre w w') in Hrun as [Hkeep _]; auto. }
  destruct k as [|k].
  { rewrite take_0, app_nil_r. by apply (mkdir_from_dir _ pre w w') in Hrun as [Hkeep _]; auto. }
  simpl in Hrun, Hk. rewrite node_at_snoc in Hrun.
  rewrite firstn_cons.
  replace (pre ++ s :: take k rest) with ((pre ++ [s]) ++ take k rest)
    by by rewrite <-app_assoc.
  destruct (files w !! (pre ++ [s])) as [[data|]|] eqn:Hq; [done| |].
  - apply (IH _ w); [done|by rewrite node_at_snoc|lia].
  - eapply IH; [exact Hrun| |lia]. simpl. rewrite node_at_snoc. apply lookup_insert_eq.
Qed.
End directories_of_namespace.

Section namespaces.
Context {B : Builtins} {U : Type}.
Implicit Types (w : world U).

(** X12: a dotted namespace becomes nested directories: for segments that
    are not empty and hold neither a dot nor a slash, the cache directory is
    the given directory followed by the segments, and each directory on the
    way exists once the wrapper is constructed; the empty namespace is no
    namespace. *)
Theorem namespace_nested_directories (dir : string) (segs : list string)
    (is_method' : bool) (serializer' : option Serializer) w (self : CacheWrapper) w' :
  segs ≠ [] →
  Forall (λ seg, (seg ≠ "")
                 ∧ ("."%char ∉ String.list_ascii_of_string seg)
                 ∧ ("/"%char ∉ String.list_ascii_of_string seg)) segs →
  __init__ (Some dir) (Some (String.concat "." segs)) is_method' serializer' w
    = (Ok self, w') →
  cache_dir self = Path dir ++ segs
  ∧ (∀ k, k ≤ length segs → node_at (files w') (Path dir ++ take k segs) = Some Dir)
  ∧ __init__ (Some dir) (Some "") is_method' serializer' w
    = __init__ (Some dir) None is_method' serializer' w.
Proof.
  intros Hne Hall.
  assert (split "." (String.concat "." segs) = segs) as Hsplit.
  { apply split_concat; [done|]. eapply Forall_impl; [exact Hall|]. by intros seg (_ & ? & _). }
  assert (concat (Path <$> segs) = segs) as Hparts.
  { clear Hne Hsplit. induction Hall as [|seg segs Hseg _ IH]; [done|].
    destruct Hseg as (? & ? & ?).
    cbn [fmap list_fmap concat]. by rewrite Path_segment, IH by done. }
  unfold __init__ at 1. unfold mbind, M_bind, mret, M_ret. rewrite Hsplit.
  destruct segs as [|seg segs]; [done|].
  unfold joinpath. rewrite Hparts.
  destruct (mkdir_parents_exist_ok _ w) as [[[]|e] w0] eqn:Hmk; [|done].
  intros ?. simplify_eq. simpl. split; [done|]. split.
  - intros k Hk. unfold mkdir_parents_exist_ok in Hmk.
    destruct (decide (k = 0)) as [->|Hk0].
    + rewrite take_0, app_nil_r.
      replace (Path dir) with ([] ++ take (length (Path dir)) (Path dir ++ seg :: segs))
        by by rewrite take_app_length.
      apply (mkdir_from_prefixes _ [] w); [done|done|rewrite length_app; simpl in *; lia].
    + replace (Path dir ++ take k (seg :: segs))
        with ([] ++ take (length (Path dir) + k) (Path dir ++ seg :: segs))
        by by rewrite take_app_add.
      apply (mkdir_from_prefixes _ [] w); [done|done|rewrite length_app; simpl in *; lia].
  - unfold __init__, mbind, M_bind, mret, M_ret, joinpath. simpl.
    by rewrite app_nil_r.
Qed.
End namespaces.

(** ** More on the generator wrappers *)

Section generator_extras.
Context {B : Builtins} {U G : Type}.
Implicit Types (self : CacheWrapper) (func : generator_function U G)
  (args : list pyval) (kwargs : kwargs_t) (w : world U) (source : G).

(** From inside the loop: a source that yields [items] and raises. *)
Lemma take_items_raises self func args kwargs e items : ∀ content source w u',
  source_raises func source (user w) items e u' →
  take_items (sync_gen_wrapper self func) (S (length items))
    (Forwarding args kwargs content source) w
  = (items, Some (Raised e), Finished,
     World (files w) (space w) u' (events w ++ (EvYield <$> items))).
Proof.
  induction items as [|item items IH]; intros content source w u' Hsrc.
  - simpl in Hsrc |- *. rewrite forward_unfold, Hsrc. simpl. by rewrite app_nil_r.
  - destruct Hsrc as (source1 & u1 & Hstep & Hrest).
    cbn [length]. rewrite take_items_S. cbn [sync_gen_wrapper].
    rewrite forward_unfold, Hstep. cbn [fst snd user files space events].
    erewrite IH; [|exact Hrest]. simpl. by rewrite <-!app_assoc.
Qed.

(** X14: on a miss of a generator wrapper (sync or async), when the source
    raises after yielding [items], the consumer receives the items and then
    the same exception, and nothing is written: the files and the space
    are those the lookup left. *)
Theorem generator_source_failure self func args kwargs w w1 items e u' :
  read self func args kwargs w = (Ok PyNone, w1) →
  source_raises func (gen_call func args kwargs) (user w1) items e u' →
  let w' := World (files w1) (space w1) u'
              (events w1 ++ EvCall (gen_name func) args kwargs :: (EvYield <$> items)) in
  take_items (sync_gen_wrapper self func) (S (length items)) (Created args kwargs) w
  = (items, Some (Raised e), Finished, w')
  ∧ take_items (async_gen_wrapper self func) (S (length items)) (Created args kwargs) w
    = (items, Some (Raised e), Finished, w').
Proof.
  intros Hread Hsrc w'.
  assert (take_items (sync_gen_wrapper self func) (S (length items)) (Created args kwargs) w
          = (items, Some (Raised e), Finished, w')) as Hrun.
  { pose proof (take_items_raises self func args kwargs e items []
        (gen_call func args kwargs)
        (World (files w1) (space w1) (user w1)
           (events w1 ++ [EvCall (gen_name func) args kwargs])) u' Hsrc) as Hloop.
    simpl in Hloop. rewrite <-app_assoc in Hloop. simpl in Hloop.
    unfold w'. rewrite <-Hloop, !take_items_S. cbn [sync_gen_wrapper]. by rewrite Hread. }
  split; [done|]. exact Hrun.
Qed.

(** X15: an iteration given up before the end is not resumed later: with no
    entry at the start, after any number of items the entry is still
    absent, so the first [next] of a new iteration calls the generator
    function again. *)
Theorem abandoned_iteration_starts_over self func args kwargs w (n : nat)
    items g' w' r g2 w2 :
  files w !! cache_file self func args kwargs = None →
  take_items (sync_gen_wrapper self func) (S n) (Created args kwargs) w
    = (items, None, g', w') →
  sync_gen_wrapper self func (Created args kwargs) (close g' w').2 = (r, g2, w2) →
  files w' !! cache_file self func args kwargs = None
  ∧ invocations w' = S (invocations w)
  ∧ invocations w2 = S (invocations w').
Proof.
  intros Hf Hrun Hnext.
  assert (take_items (sync_gen_wrapper self func) (S n)
            (Forwarding args kwargs [] (gen_call func args kwargs))
            (World (files w) (space w) (user w)
               (events w ++ [EvCall (gen_name func) args kwargs]))
          = (items, None, g', w')) as Hloop.
  { rewrite <-Hrun, !take_items_S. cbn [sync_gen_wrapper].
    by rewrite (read_absent _ _ _ _ _ Hf). }
  apply take_items_forwarding in Hloop as (_ & _ & Hf' & _ & He'). simpl in Hf', He'.
  assert (files w' !! cache_file self func args kwargs = None) as Hf2 by by rewrite Hf'.
  assert (invocations w' = S (invocations w)) as Hi'.
  { erewrite (invocations_app w w'); [|by rewrite He', <-app_assoc].
    rewrite filter_app, filter_is_call_yields. simpl. lia. }
  split_and!; [done..|].
  unfold close in Hnext. cbn [snd sync_gen_wrapper] in Hnext.
  rewrite (read_absent _ _ _ _ _ Hf2) in Hnext. cbn [is_not_None] in Hnext.
  rewrite forward_unfold in Hnext. cbn [user files space events] in Hnext.
  destruct ((gen_resume func (gen_call func args kwargs) (user w')).1)
    as [item source'| |e'].
  - simplify_eq. unfold invocations. simpl.
    rewrite !filter_app, !length_app. simpl. lia.
  - destruct (write _ _ _ _ _ _) as [rw w3] eqn:Hw.
    apply write_frame in Hw as (_ & Hi3 & _).
    assert (invocations w3 = S (invocations w')) as Hi.
    { rewrite Hi3. unfold invocations. simpl. rewrite filter_app, length_app. simpl. lia. }
    by destruct rw as [[]|?]; simplify_eq.
  - simplify_eq. unfold invocations. simpl. rewrite filter_app, length_app. simpl. lia.
Qed.
End generator_extras.

(** ** What the default serializer writes *)

Lemma b2a_char_text (v : N) :
  In (b2a_char v) (table_b2a_base64 ++ [BASE64_PAD; NEWLINE]).
Proof.
  unfold b2a_char. apply in_or_app.
  destruct (nth_in_or_default (N.to_nat v) table_b2a_base64 BASE64_PAD) as [Hin| ->].
  - by left.
  - right. by left.
Qed.

Lemma pad_text : In BASE64_PAD (table_b2a_base64 ++ [BASE64_PAD; NEWLINE]).
Proof. apply in_or_app. right. by left. Qed.

Lemma newline_text : In NEWLINE (table_b2a_base64 ++ [BASE64_PAD; NEWLINE]).
Proof. apply in_or_app. right. right. by left. Qed.

Lemma b2a_groups_text (k : nat) : ∀ data : bytes,
  length data < 3 * S k →
  Forall (λ c, In c (table_b2a_base64 ++ [BASE64_PAD; NEWLINE])) (b2a_groups data).
Proof.
  induction k as [|k IH]; intros data Hlen;
    destruct data as [|b0 [|b1 [|b2 data]]]; simpl in Hlen; try lia;
    cbn [b2a_groups]; cbv zeta;
    repeat (apply Forall_cons; split; [first [apply b2a_char_text|apply pad_text]|]);
    try by constructor.
  apply IH. lia.
Qed.

Lemma encodebytes_text (s : bytes) :
  Forall (λ c, In c (table_b2a_base64 ++ [BASE64_PAD; NEWLINE])) (encodebytes s).
Proof.
  unfold encodebytes. apply Forall_concat, Forall_fmap, Forall_forall.
  intros i _. simpl. unfold b2a_base64. apply Forall_app. split.
  - apply (b2a_groups_text (length s)). rewrite length_take, length_drop. lia.
  - apply Forall_cons. split; [apply newline_text|by constructor].
Qed.

Section serializer_output.
Context {B : Builtins}.

(** X16: whatever the default serializer returns from [dumps] is text: the
    base64 encoding of the pickled bytes, made of the 64 characters of the
    alphabet, the padding character and newlines only; and [loads] hands
    exactly the pickled bytes back to [pickle.loads]. *)
Theorem PickleSerializer_dumps_text (obj : pyval) (encoded : bytes) :
  dumps PickleSerializer obj = Ok encoded →
  ∃ blob,
    pickle_dumps obj = Ok blob
    ∧ encoded = encodebytes blob
    ∧ Forall (λ c, In c (table_b2a_base64 ++ [BASE64_PAD; NEWLINE])) encoded
    ∧ loads PickleSerializer encoded = pickle_loads blob.
Proof.
  simpl. unfold PickleSerializer_dumps, PickleSerializer_loads.
  destruct (pickle_dumps obj) as [blob|e]; simpl; [|done].
  intros ?. simplify_eq. exists blob.
  split_and!; [done|done|apply encodebytes_text|].
  by rewrite decodebytes_encodebytes.
Qed.
End serializer_output.

(** ** The further properties at the sample programs *)

Lemma write_then_read_witness :
  ∃ w1 w2,
    write (B:=sample_builtins) sample_self (PyInt 4) sample_fn [PyInt 3] ∅ sample_world
    = (Ok (), w1)
    ∧ read (B:=sample_builtins) sample_self sample_fn [PyInt 3] ∅ w1 = (Ok (PyInt 4), w2)
    ∧ files w2
      = <[cache_file (B:=sample_builtins) sample_self sample_fn [PyInt 3] ∅
          := File (encodebytes [x49; x04])]> (files sample_world)
    ∧ user w2 = user sample_world.
Proof.
  apply (write_then_read (B:=sample_builtins) sample_self (PyInt 4) sample_fn [PyInt 3] ∅
           sample_world (encodebytes [x49; x04])).
  - reflexivity.
  - vm_compute. discriminate.
  - reflexivity.
  - reflexivity.
  - vm_compute. lia.
Defined.


Lemma unstorable_result_returned_witness :
  ∃ w',
    sync_wrapper (B:=sample_builtins) sample_self sample_fn_object [PyInt 3] ∅ sample_world
    = (Ok (PyObject "object" 1), w')
    ∧ files w' = files sample_world
    ∧ space w' = space sample_world
    ∧ invocations w' = S (invocations sample_world).
Proof.
  apply (unstorable_result_returned (B:=sample_builtins) sample_self sample_fn_object
           [PyInt 3] ∅ sample_world (PyObject "object" 1)).
  - reflexivity.
  - vm_compute. reflexivity.
  - reflexivity.
  - left. exists (Error "PicklingError"). reflexivity.
Defined.

Lemma make_key_collisions_witness :
  make_key (B:=sample_builtins) false "fn" [PyInt 1; PyInt 2] ∅
  = make_key (B:=sample_builtins) false "fn"
      [PyStr (str (Builtins:=sample_builtins) (PyInt 1) +:+ "_"
              +:+ str (Builtins:=sample_builtins) (PyInt 2))] ∅
  ∧ make_key (B:=sample_builtins) false "fn"
      [PyStr ("a" +:+ "=" +:+ str (Builtins:=sample_builtins) (PyInt 1))] ∅
    = make_key (B:=sample_builtins) false "fn" [] {[ "a" := PyInt 1 ]}.
Proof.
  apply (make_key_collisions (B:=sample_builtins) "fn" (PyInt 1) (PyInt 2) [] ∅ "a" (PyInt 1)).
  intros s. reflexivity.
Defined.


Lemma init_establishes_directory_witness :
  let self := {| is_method := false; cache_dir := ["cache"; "a"; "b"];
                 serializer := PickleSerializer (B:=sample_builtins) |} in
  let w' := (__init__ (B:=sample_builtins) (Some "cache") (Some "a.b") false None
               sample_world).2 in
  node_at (files w') (cache_dir self) = Some Dir
  ∧ (∀ p n, files sample_world !! p = Some n → files w' !! p = Some n)
  ∧ space w' = space sample_world ∧ user w' = user sample_world
  ∧ is_method self = false
  ∧ serializer self = default (PickleSerializer (B:=sample_builtins)) None
  ∧ __init__ (B:=sample_builtins) (Some "cache") (Some "a.b") false None w' = (Ok self, w').
Proof.
  intros self w'.
  apply (init_establishes_directory (B:=sample_builtins) (Some "cache") (Some "a.b") false
           None sample_world self w').
  vm_compute. reflexivity.
Defined.

Lemma cache_file_in_the_way_witness :
  cache (B:=sample_builtins) (U:=nat) (G:=Z * nat) (Some (PlainFunction sample_fn))
    (Some "cache") None false None sample_world_file_in_the_way
  = (Raise FileExistsError, sample_world_file_in_the_way).
Proof.
  apply (cache_file_in_the_way (B:=sample_builtins) (U:=nat) (G:=Z * nat)
           (PlainFunction sample_fn) "cache" false None sample_world_file_in_the_way []).
  - vm_compute. discriminate.
  - vm_compute. reflexivity.
  - intros k Hk. vm_compute in Hk. lia.
Defined.

Lemma namespace_nested_directories_witness :
  let self := {| is_method := false; cache_dir := ["cache"; "a"; "b"];
                 serializer := PickleSerializer (B:=sample_builtins) |} in
  let w' := (__init__ (B:=sample_builtins) (Some "cache") (Some "a.b") false None
               sample_world).2 in
  cache_dir self = Path "cache" ++ ["a"; "b"]
  ∧ (∀ k, k ≤ length ["a"; "b"] →
          node_at (files w') (Path "cache" ++ take k ["a"; "b"]) = Some Dir)
  ∧ __init__ (B:=sample_builtins) (Some "cache") (Some "") false None sample_world
    = __init__ (B:=sample_builtins) (Some "cache") None false None sample_world.
Proof.
  intros self w'.
  apply (namespace_nested_directories (B:=sample_builtins) "cache" ["a"; "b"] false None
           sample_world self w').
  - discriminate.
  - apply (bool_decide_unpack _). vm_compute. reflexivity.
  - vm_compute. reflexivity.
Defined.

Lemma generator_source_failure_witness :
  let w' := World (files sample_world) (space sample_world) 1
              (events sample_world ++ EvCall "fn" [PyInt 3] ∅ :: (EvYield <$> [PyInt 3])) in
  take_items (sync_gen_wrapper (B:=sample_builtins) sample_self sample_gen_raise)
    (S (length [PyInt 3])) (Created [PyInt 3] ∅) sample_world
  = ([PyInt 3], Some (Raised (Error "ValueError")), Finished, w')
  ∧ take_items (async_gen_wrapper (B:=sample_builtins) sample_self sample_gen_raise)
      (S (length [PyInt 3])) (Created [PyInt 3] ∅) sample_world
    = ([PyInt 3], Some (Raised (Error "ValueError")), Finished, w').
Proof.
  apply (generator_source_failure (B:=sample_builtins) sample_self sample_gen_raise
           [PyInt 3] ∅ sample_world sample_world [PyInt 3] (Error "ValueError") 1).
  - vm_compute. reflexivity.
  - simpl. eexists _, _. split; reflexivity.
Defined.

Lemma abandoned_iteration_starts_over_witness :
  let run := take_items (sync_gen_wrapper (B:=sample_builtins) sample_self sample_gen) 2
               (Created [PyInt 3] ∅) sample_world in
  let again := sync_gen_wrapper (B:=sample_builtins) sample_self sample_gen
                 (Created [PyInt 3] ∅) (close run.1.2 run.2).2 in
  files run.2 !! cache_file (B:=sample_builtins) sample_self sample_gen [PyInt 3] ∅ = None
  ∧ invocations run.2 = S (invocations sample_world)
  ∧ invocations again.2 = S (invocations run.2).
Proof.
  intros run again.
  apply (abandoned_iteration_starts_over (B:=sample_builtins) sample_self sample_gen
           [PyInt 3] ∅ sample_world 1 [PyInt 3; PyInt 4] run.1.2 run.2
           again.1.1 again.1.2 again.2).
  - vm_compute. reflexivity.
  - vm_compute. reflexivity.
  - vm_compute. reflexivity.
Defined.

Lemma PickleSerializer_dumps_text_witness :
  ∃ blob,
    pickle_dumps (Builtins:=sample_builtins) (PyInt 4) = Ok blob
    ∧ encodebytes [x49; x04] = encodebytes blob
    ∧ Forall (λ c, In c (table_b2a_base64 ++ [BASE64_PAD; NEWLINE]))
        (encodebytes [x49; x04])
    ∧ loads (PickleSerializer (B:=sample_builtins)) (encodebytes [x49; x04])
      = pickle_loads (Builtins:=sample_builtins) blob.
Proof.
  apply (PickleSerializer_dumps_text (B:=sample_builtins) (PyInt 4) (encodebytes [x49; x04])).
  reflexivity.
Defined.

(** ** A stored value that cannot be iterated *)

Section generator_hit.
Context {B : Builtins} {U G : Type}.
Implicit Types (self : CacheWrapper) (func : generator_function U G)
  (args : list pyval) (kwargs : kwargs_t) (w : world U).

(** X18: a generator wrapper (sync or async) that finds an entry holding a
    value other than [None] that cannot be iterated, such as the integer a
    plain function of the same name stored, raises at the first [next]
    without calling the generator function, and leaves the entry in place. *)
Theorem generator_hit_not_iterable self func args kwargs w data v e :
  files w !! cache_file self func args kwargs = Some (File data) →
  loads (serializer self) data = Ok v →
  v ≠ PyNone →
  py_iter v = Raise e →
  let w' := World (files w) (space w) (user w)
              (events w ++ [EvLog (InfoLoaded
                 (make_key (is_method self) (__name__ func) args kwargs))]) in
  sync_gen_wrapper self func (Created args kwargs) w = (Raised e, Finished, w')
  ∧ async_gen_wrapper self func (Created args kwargs) w = (Raised e, Finished, w')
  ∧ invocations w' = invocations w.
Proof.
  intros Hf Hl Hv Hiter w'.
  assert (sync_gen_wrapper self func (Created args kwargs) w = (Raised e, Finished, w'))
    as Hrun.
  { cbn [sync_gen_wrapper]. rewrite (read_hit _ _ _ _ _ _ _ Hf Hl), Hiter.
    by destruct v. }
  split_and!; [done|exact Hrun|].
  by erewrite (invocations_app w w') by done.
Qed.
End generator_hit.

Lemma generator_hit_not_iterable_witness :
  let w' := World (files sample_world_int_entry) (space sample_world_int_entry)
              (user sample_world_int_entry)
              (events sample_world_int_entry
               ++ [EvLog (InfoLoaded
                     (make_key (B:=sample_builtins) false "fn" [PyInt 3] ∅))]) in
  sync_gen_wrapper (B:=sample_builtins) sample_self sample_gen (Created [PyInt 3] ∅)
    sample_world_int_entry = (Raised TypeError, Finished, w')
  ∧ async_gen_wrapper (B:=sample_builtins) sample_self sample_gen (Created [PyInt 3] ∅)
      sample_world_int_entry = (Raised TypeError, Finished, w')
  ∧ invocations w' = invocations sample_world_int_entry.
Proof.
  apply (generator_hit_not_iterable (B:=sample_builtins) sample_self sample_gen [PyInt 3] ∅
           sample_world_int_entry (encodebytes [x49; x04]) (PyInt 4) TypeError).
  - vm_compute. reflexivity.
  - reflexivity.
  - discriminate.
  - reflexivity.
Defined.

(** * Callables that change their arguments *)

(** ** The two kinds of callables *)

Section leaving_arguments.
Context {B : Builtins} {U G : Type}.
Implicit Types (self : CacheWrapper) (args : list pyval) (kwargs : kwargs_t) (w : world U).

(** For a function that leaves its arguments as it got them, [write] gets
    the arguments that [read] looked up. *)
Lemma sync_wrapper_leaves_arguments self (func : function U) args kwargs w :
  Mutating.sync_wrapper self (leaves_arguments func) args kwargs w
  = sync_wrapper self func args kwargs w.
Proof.
  unfold Mutating.sync_wrapper, sync_wrapper, mbind, M_bind, mret, M_ret.
  change (read self (leaves_arguments func) args kwargs w)
    with (read self func args kwargs w).
  destruct (read self func args kwargs w) as [[hit|e] w1]; [|done].
  destruct (is_not_None hit); [done|].
  unfold Mutating.call, call. simpl.
  by destruct (fn_body func args kwargs (user w1)) as [[content|e] u].
Qed.

Lemma keeps_key_leaves_arguments self (func : function U) args kwargs (u : U) :
  Mutating.keeps_key self (leaves_arguments func) args kwargs u.
Proof.
  unfold Mutating.keeps_key. simpl. by destruct (fn_body func args kwargs u).
Qed.

Lemma sync_gen_wrapper_leaves_arguments self (func : generator_function U G)
    (g : gen_state G) w :
  Mutating.sync_gen_wrapper self (gen_leaves_arguments func) (with_arguments g) w
  = let '(outcome, g', w') := sync_gen_wrapper self func g w in
    (outcome, with_arguments g', w').
Proof.
  assert (∀ args kwargs content source w0,
    Mutating.forward self (gen_leaves_arguments func) args kwargs content
      (args, kwargs, source) w0
    = let '(outcome, g', w') := forward self func args kwargs content source w0 in
      (outcome, with_arguments g', w')) as Hforward.
  { intros args kwargs content source w0. unfold Mutating.forward, forward. simpl.
    destruct (gen_resume func source (user w0)) as [[item source'| |e] u]; simpl; [done| |done].
    match goal with
    | |- context [write self (PyList content) (gen_leaves_arguments func) args kwargs ?w1] =>
        change (write self (PyList content) (gen_leaves_arguments func) args kwargs w1)
          with (write self (PyList content) func args kwargs w1);
        by destruct (write self (PyList content) func args kwargs w1) as [[[]|e] w']
    end. }
  destruct g as [args kwargs|rest|args kwargs content source|]; simpl.
  - change (read self (gen_leaves_arguments func) args kwargs w)
      with (read self func args kwargs w).
    destruct (read self func args kwargs w) as [[hit|e] w1]; [|done].
    destruct (is_not_None hit).
    + destruct (py_iter hit) as [[|item items]|e]; done.
    + apply Hforward.
  - by destruct rest.
  - apply Hforward.
  - done.
Qed.

Lemma source_yields_leaves_arguments (func : generator_function U G) args kwargs
    (items : list pyval) : ∀ (source : G) (u u' : U),
  source_yields func source u items u' →
  Mutating.source_yields (gen_leaves_arguments func) (args, kwargs, source) u
    items args kwargs u'.
Proof.
  induction items as [|item items IH]; intros source u u' Hsrc; simpl in *.
  - by rewrite Hsrc.
  - destruct Hsrc as (source1 & u1 & Hstep & Hrest).
    exists (args, kwargs, source1), u1. rewrite Hstep. split; [done|]. by apply IH.
Qed.
End leaving_arguments.

(** ** The wrappers for functions *)

Section mutating_function_wrappers.
Context {B : Builtins} {U : Type}.
Implicit Types (self : CacheWrapper) (func : Mutating.function U) (args : list pyval)
  (kwargs : kwargs_t) (w : world U).

Lemma mutating_call_unfold func args kwargs w :
  Mutating.call func args kwargs w
  = (match Mutating.returned (Mutating.fn_body func args kwargs (user w)) with
     | Ok content =>
         Ok (content,
             Mutating.args_after (Mutating.fn_body func args kwargs (user w)),
             Mutating.kwargs_after (Mutating.fn_body func args kwargs (user w)))
     | Raise e => Raise e
     end,
     World (files w) (space w)
       (Mutating.user_after (Mutating.fn_body func args kwargs (user w)))
       (events w ++ [EvCall (Mutating.fn_name func) args kwargs])).
Proof.
  unfold Mutating.call.
  by destruct (Mutating.returned (Mutating.fn_body func args kwargs (user w))).
Qed.

Lemma mutating_sync_wrapper_unfold self func args kwargs w :
  Mutating.sync_wrapper self func args kwargs w
  = match read self func args kwargs w with
    | (Raise e, w1) => (Raise e, w1)
    | (Ok hit, w1) =>
        if is_not_None hit then (Ok hit, w1)
        else
          match Mutating.call func args kwargs w1 with
          | (Raise e, w2) => (Raise e, w2)
          | (Ok (content, args', kwargs'), w2) =>
              match write self content func args' kwargs' w2 with
              | (Raise e, w3) => (Raise e, w3)
              | (Ok _, w3) => (Ok content, w3)
              end
          end
    end.
Proof.
  unfold Mutating.sync_wrapper, mbind, M_bind, mret, M_ret.
  destruct (read self func args kwargs w) as [[hit|e] w1]; [|done].
  destruct (is_not_None hit); [done|].
  destruct (Mutating.call func args kwargs w1) as [[[[content args'] kwargs']|e] w2]; [|done].
  by destruct (write self content func args' kwargs' w2) as [[[]|e] w3].
Qed.

Lemma mutating_async_wrapper_sync self func args kwargs w :
  Mutating.async_wrapper self func args kwargs w
  = Mutating.sync_wrapper self func args kwargs w.
Proof. reflexivity. Qed.

Lemma keeps_key_cache_file self func args kwargs (u : U) :
  Mutating.keeps_key self func args kwargs u →
  cache_file self func
    (Mutating.args_after (Mutating.fn_body func args kwargs u))
    (Mutating.kwargs_after (Mutating.fn_body func args kwargs u))
  = cache_file self func args kwargs.
Proof.
  unfold Mutating.keeps_key, cache_file, __name__, Mutating.function_named.
  by intros ->.
Qed.

(** A hit: the stored value, and the function is not called. *)
Lemma mutating_sync_wrapper_hit self func args kwargs w data content :
  files w !! cache_file self func args kwargs = Some (File data) →
  loads (serializer self) data = Ok content →
  content ≠ PyNone →
  ∃ w', Mutating.sync_wrapper self func args kwargs w = (Ok content, w')
        ∧ files w' = files w ∧ space w' = space w ∧ user w' = user w
        ∧ invocations w' = invocations w.
Proof.
  intros Hf Hl Hc. rewrite mutating_sync_wrapper_unfold, (read_hit _ _ _ _ _ _ _ Hf Hl).
  destruct content; try done; simpl; eexists; (split; [done|]); simpl;
    split_and!; try done; by erewrite invocations_app by done.
Qed.

(** The miss branch when everything works and the call leaves the key as
    it was: one call, and the entry that was looked up holds the encoded
    result. *)
Lemma mutating_miss_branch_stores self func args kwargs w v blob :
  node_at (files w) (cache_dir self) = Some Dir →
  files w !! cache_file self func args kwargs ≠ Some Dir →
  Mutating.returned (Mutating.fn_body func args kwargs (user w)) = Ok v →
  Mutating.keeps_key self func args kwargs (user w) →
  dumps (serializer self) v = Ok blob →
  length blob ≤ space w + size_at (files w) (cache_file self func args kwargs) →
  ∃ args' kwargs' w2 w3,
    Mutating.call func args kwargs w = (Ok (v, args', kwargs'), w2)
    ∧ write self v func args' kwargs' w2 = (Ok (), w3)
    ∧ files w3 = <[cache_file self func args kwargs := File blob]> (files w)
    ∧ invocations w3 = S (invocations w)
    ∧ user w3 = Mutating.user_after (Mutating.fn_body func args kwargs (user w)).
Proof.
  intros Hdir Hf Hv Hkey Hd Hroom. rewrite mutating_call_unfold, Hv.
  apply keeps_key_cache_file in Hkey.
  eexists _, _, _, _. split; [done|].
  split; [apply write_stored; simpl; rewrite ?Hkey; done|]. simpl.
  rewrite Hkey. split_and!; [done| |done].
  erewrite invocations_app; [|simpl; by rewrite <-app_assoc]. simpl. lia.
Qed.

(** C1, amended: when the first call returns a value other than [None]
    that the serializer encodes to bytes which decode back to it, the
    function leaves the key of its arguments as it was (it does not change
    them in a way their text form shows), and the entry can be stored (the
    cache directory is there and the device has room), the second call with
    the same arguments returns that value without calling the function; the
    two calls together call it at most once. *)
Theorem second_call_returns_stored self func args kwargs w v blob w1 :
  Mutating.sync_wrapper self func args kwargs w = (Ok v, w1) →
  Mutating.keeps_key self func args kwargs (user w) →
  v ≠ PyNone →
  dumps (serializer self) v = Ok blob →
  loads (serializer self) blob = Ok v →
  node_at (files w) (cache_dir self) = Some Dir →
  length blob ≤ space w + size_at (files w) (cache_file self func args kwargs) →
  ∃ w2, Mutating.sync_wrapper self func args kwargs w1 = (Ok v, w2)
        ∧ invocations w2 = invocations w1
        ∧ invocations w2 ≤ S (invocations w).
Proof.
  intros Hfirst Hkey Hv Hd Hl Hdir Hroom.
  (* the second call is a hit as soon as the entry holds [blob] or [v] *)
  assert (∀ data, files w1 !! cache_file self func args kwargs = Some (File data) →
            loads (serializer self) data = Ok v →
            invocations w1 ≤ S (invocations w) →
            ∃ w2, Mutating.sync_wrapper self func args kwargs w1 = (Ok v, w2)
                  ∧ invocations w2 = invocations w1
                  ∧ invocations w2 ≤ S (invocations w)) as Hhit.
  { intros data Hf1 Hl1 Hle.
    destruct (mutating_sync_wrapper_hit _ _ _ _ _ _ _ Hf1 Hl1 Hv)
      as (w2 & -> & _ & _ & _ & Hi).
    exists w2. split_and!; [done|done|lia]. }
  (* the miss branch of the first call, from the world the lookup left *)
  assert (∀ wr, files wr !! cache_file self func args kwargs ≠ Some Dir →
            node_at (files wr) (cache_dir self) = Some Dir →
            length blob ≤ space wr + size_at (files wr) (cache_file self func args kwargs) →
            invocations wr = invocations w →
            user wr = user w →
            match Mutating.call func args kwargs wr with
            | (Raise e, w2) => (Raise e, w2)
            | (Ok (content, args', kwargs'), w2) =>
                match write self content func args' kwargs' w2 with
                | (Raise e, w3) => (Raise e, w3)
                | (Ok _, w3) => (Ok content, w3)
                end
            end = (Ok v, w1) →
            ∃ w2, Mutating.sync_wrapper self func args kwargs w1 = (Ok v, w2)
                  ∧ invocations w2 = invocations w1
                  ∧ invocations w2 ≤ S (invocations w)) as Hmiss.
  { intros wr Hnd Hdr Hrm Hinv Hu Hrun.
    destruct (Mutating.returned (Mutating.fn_body func args kwargs (user wr)))
      as [content|e] eqn:Hbody; [|rewrite mutating_call_unfold, Hbody in Hrun; done].
    assert (content = v) as ->.
    { rewrite mutating_call_unfold, Hbody in Hrun. simpl in Hrun.
      by destruct (write _ _ _ _ _ _) as [[[]|?] ?]; simplify_eq. }
    destruct (mutating_miss_branch_stores self func args kwargs wr v blob)
      as (args' & kwargs' & w2 & w3 & Hc & Hw & Hf3 & Hi3 & _);
      [done|done|done|by rewrite Hu|done|done|].
    rewrite Hc, Hw in Hrun. simplify_eq.
    apply (Hhit blob); [by rewrite Hf3, lookup_insert_eq|done|lia]. }
  rewrite mutating_sync_wrapper_unfold in Hfirst.
  destruct (files w !! cache_file self func args kwargs) as [[data|]|] eqn:Hf.
  - destruct (loads (serializer self) data) as [content|exc] eqn:Hl0.
    + rewrite (read_hit _ _ _ _ _ _ _ Hf Hl0) in Hfirst.
      destruct (is_not_None content) eqn:Hnn.
      * simplify_eq. apply (Hhit data); [done|done|].
        erewrite invocations_app by done. simpl. lia.
      * revert Hfirst. apply Hmiss; simpl; [by rewrite Hf|done|done| |done].
        by erewrite invocations_app by done.
    + rewrite (read_corrupted _ _ _ _ _ _ _ Hf Hl0) in Hfirst. simpl in Hfirst.
      revert Hfirst. apply Hmiss; simpl.
      * by rewrite lookup_delete_eq.
      * unfold cache_file. by rewrite node_at_delete_snoc.
      * unfold size_at in *. rewrite lookup_delete_eq. rewrite Hf in Hroom. lia.
      * by erewrite invocations_app by done.
      * done.
  - by rewrite (read_directory _ _ _ _ _ Hf) in Hfirst.
  - rewrite (read_absent _ _ _ _ _ Hf) in Hfirst. simpl in Hfirst.
    revert Hfirst. apply Hmiss; [by rewrite Hf|done|done|done|done].
Qed.

(** C9, amended: on a miss, when the wrapped function raises, the wrapper
    (sync or async) raises the same exception after calling the function
    once; nothing is written, so the files are as the lookup left them:
    those before the call, unless the entry held bytes that do not decode,
    which the lookup has removed. *)
Theorem raising_function_propagates self func args kwargs w w1 e :
  read self func args kwargs w = (Ok PyNone, w1) →
  Mutating.returned (Mutating.fn_body func args kwargs (user w1)) = Raise e →
  let w2 := World (files w1) (space w1)
              (Mutating.user_after (Mutating.fn_body func args kwargs (user w1)))
              (events w1 ++ [EvCall (Mutating.fn_name func) args kwargs]) in
  Mutating.sync_wrapper self func args kwargs w = (Raise e, w2)
  ∧ Mutating.async_wrapper self func args kwargs w = (Raise e, w2)
  ∧ invocations w2 = S (invocations w)
  ∧ files w2 = files w1
  ∧ ((∀ data exc, files w !! cache_file self func args kwargs = Some (File data) →
                  loads (serializer self) data ≠ Raise exc) →
     files w2 = files w)
  ∧ (∀ data exc, files w !! cache_file self func args kwargs = Some (File data) →
                 loads (serializer self) data = Raise exc →
                 files w2 = delete (cache_file self func args kwargs) (files w)).
Proof.
  intros Hread Hbody w2.
  assert (Mutating.sync_wrapper self func args kwargs w = (Raise e, w2)) as Hsync.
  { rewrite mutating_sync_wrapper_unfold, Hread. simpl.
    by rewrite mutating_call_unfold, Hbody. }
  destruct (read_frame _ _ _ _ _ _ _ Hread) as (_ & _ & Hinv).
  split_and!; [done|by rewrite mutating_async_wrapper_sync| |done| |].
  - erewrite (invocations_app w1 w2) by done. simpl. lia.
  - intros Hsound. simpl.
    destruct (files w !! cache_file self func args kwargs) as [[data|]|] eqn:Hf.
    + destruct (loads (serializer self) data) as [content|exc] eqn:Hl.
      * rewrite (read_hit _ _ _ _ _ _ _ Hf Hl) in Hread. by simplify_eq.
      * by destruct (Hsound data exc).
    + by rewrite (read_directory _ _ _ _ _ Hf) in Hread.
    + rewrite (read_absent _ _ _ _ _ Hf) in Hread. by simplify_eq.
  - intros data exc Hf Hl. simpl.
    rewrite (read_corrupted _ _ _ _ _ _ _ Hf Hl) in Hread. by simplify_eq.
Qed.
End mutating_function_wrappers.

(** ** One call of a wrapped function *)

Section mutating_one_call.
Context {B : Builtins} {U : Type}.
Implicit Types (self : CacheWrapper) (func : Mutating.function U) (args : list pyval)
  (kwargs : kwargs_t) (w : world U).

(** X3: a call of a wrapped function (sync or async), whether it returns
    or raises, leaves every file as it was, other than the entry file of
    the arguments as they were passed, which the lookup may remove, and the
    entry file of the arguments as the call left them, which is written. *)
Theorem wrapper_touches_own_entries self func args kwargs w r w' (q : path) :
  Mutating.sync_wrapper self func args kwargs w = (r, w') →
  q ≠ cache_file self func args kwargs →
  q ≠ cache_file self func
        (Mutating.args_after (Mutating.fn_body func args kwargs (user w)))
        (Mutating.kwargs_after (Mutating.fn_body func args kwargs (user w))) →
  files w' !! q = files w !! q
  ∧ Mutating.async_wrapper self func args kwargs w = (r, w').
Proof.
  intros Hrun Hq Hq'. split; [|by rewrite mutating_async_wrapper_sync].
  rewrite mutating_sync_wrapper_unfold in Hrun.
  destruct (read self func args kwargs w) as [rr w1] eqn:Hread.
  destruct (read_frame _ _ _ _ _ _ _ Hread) as (Hfiles & Hu1 & _).
  assert (files w1 !! q = files w !! q) as Hq1.
  { destruct Hfiles as [[-> _]|(_ & -> & _)]; [done|]. by rewrite lookup_delete_ne. }
  destruct rr as [hit|e]; [|by simplify_eq].
  destruct (is_not_None hit); [by simplify_eq|].
  rewrite mutating_call_unfold, Hu1 in Hrun.
  destruct (Mutating.returned (Mutating.fn_body func args kwargs (user w)))
    as [content|e]; [|by simplify_eq].
  destruct (write self content func _ _ _) as [rw w3] eqn:Hwrite.
  apply write_frame in Hwrite as (_ & _ & Hq3). specialize (Hq3 q Hq'). simpl in Hq3.
  destruct rw as [[]|e]; simplify_eq; congruence.
Qed.

(** The first call for an absent entry: one call of the function, and the
    entry holds the encoded result. *)
Lemma mutating_first_call_stores self func args kwargs w v blob :
  node_at (files w) (cache_dir self) = Some Dir →
  files w !! cache_file self func args kwargs = None →
  Mutating.returned (Mutating.fn_body func args kwargs (user w)) = Ok v →
  Mutating.keeps_key self func args kwargs (user w) →
  dumps (serializer self) v = Ok blob →
  length blob ≤ space w →
  ∃ w1, Mutating.sync_wrapper self func args kwargs w = (Ok v, w1)
        ∧ files w1 = <[cache_file self func args kwargs := File blob]> (files w)
        ∧ invocations w1 = S (invocations w)
        ∧ user w1 = Mutating.user_after (Mutating.fn_body func args kwargs (user w)).
Proof.
  intros Hdir Hf Hbody Hkey Hd Hroom.
  destruct (mutating_miss_branch_stores self func args kwargs w v blob)
    as (args' & kwargs' & w2 & w3 & Hc & Hw & Hf3 & Hi3 & Hu3);
    [done|by rewrite Hf|done|done|done|lia|].
  exists w3. rewrite mutating_sync_wrapper_unfold, (read_absent _ _ _ _ _ Hf). simpl.
  by rewrite Hc, Hw.
Qed.

(** Calls that find a decodable entry other than [None]: the same value
    each time, and nothing else changes. *)
Lemma mutating_call_repeatedly_hits self func args kwargs data v (n : nat) : ∀ w,
  files w !! cache_file self func args kwargs = Some (File data) →
  loads (serializer self) data = Ok v →
  v ≠ PyNone →
  ∃ w', Mutating.call_repeatedly self func args kwargs n w = (replicate n (Ok v), w')
        ∧ files w' = files w ∧ user w' = user w
        ∧ invocations w' = invocations w.
Proof.
  induction n as [|n IH]; intros w Hf Hl Hv; [by exists w|].
  destruct (mutating_sync_wrapper_hit _ _ _ _ _ _ _ Hf Hl Hv)
    as (w1 & Hrun & Hf1 & _ & Hu1 & Hi1).
  destruct (IH w1) as (w' & Hrest & Hf' & Hu' & Hi'); [by rewrite Hf1|done|done|].
  exists w'. simpl. rewrite Hrun, Hrest. split_and!; congruence.
Qed.

(** X4: any number of calls in a row with the same arguments, starting
    without an entry, of a function that leaves the key of its arguments
    as it was, call the function once: every call returns the value of the
    first, and the user's state is what that one call left. *)
Theorem repeated_calls_call_once self func args kwargs w v blob (n : nat) :
  node_at (files w) (cache_dir self) = Some Dir →
  files w !! cache_file self func args kwargs = None →
  Mutating.returned (Mutating.fn_body func args kwargs (user w)) = Ok v →
  Mutating.keeps_key self func args kwargs (user w) →
  v ≠ PyNone →
  dumps (serializer self) v = Ok blob →
  loads (serializer self) blob = Ok v →
  length blob ≤ space w →
  ∃ w', Mutating.call_repeatedly self func args kwargs (S n) w
        = (replicate (S n) (Ok v), w')
        ∧ invocations w' = S (invocations w)
        ∧ user w' = Mutating.user_after (Mutating.fn_body func args kwargs (user w)).
Proof.
  intros Hdir Hf Hbody Hkey Hv Hd Hl Hroom.
  destruct (mutating_first_call_stores self func args kwargs w v blob)
    as (w1 & Hfirst & Hf1 & Hi1 & Hu1); [done..|].
  destruct (mutating_call_repeatedly_hits self func args kwargs blob v n w1)
    as (w' & Hrest & _ & Hu' & Hi'); [by rewrite Hf1, lookup_insert_eq|done|done|].
  exists w'. simpl. rewrite Hfirst, Hrest. split_and!; congruence.
Qed.


End mutating_one_call.

(** ** The wrappers for generators *)

Section mutating_generator_wrappers.
Context {B : Builtins} {U G : Type}.
Implicit Types (self : CacheWrapper) (func : Mutating.generator_function U G)
  (args : list pyval) (kwargs : kwargs_t) (w : world U) (source : G).







End mutating_generator_wrappers.

(** ** From the decorator to the calls *)

Section mutating_decorated.
Context {B : Builtins} {U G : Type}.
Implicit Types (w : world U).

(** X17: a plain function decorated with a directory (and possibly a
    namespace) and no serializer gets the sync wrapper with the default
    serializer; called twice with arguments that have no entry yet and whose
    key it leaves as it was, for a result other than [None] that [pickle]
    encodes and decodes back, it runs once and both calls return the
    result. *)
Theorem decorated_function_is_cached (dir : string) (namespace : option string)
    (is_method' : bool) (func : Mutating.function U) (args : list pyval) (kwargs : kwargs_t)
    w (wrapper : Mutating.wrapped (U:=U) (G:=G)) w0 (v : pyval) (pickled : bytes) :
  Mutating.partial_call
    {| partial_cache_dir := Some dir; partial_namespace := namespace;
       partial_is_method := is_method' |}
    (Mutating.PlainFunction func) w = (Ok (Mutating.Wrapped wrapper), w0) →
  files w0 !! cache_file (Mutating.wrapped_self wrapper) func args kwargs = None →
  Mutating.returned (Mutating.fn_body func args kwargs (user w0)) = Ok v →
  Mutating.keeps_key (Mutating.wrapped_self wrapper) func args kwargs (user w0) →
  v ≠ PyNone →
  pickle_dumps v = Ok pickled →
  pickle_loads pickled = Ok v →
  length (encodebytes pickled) ≤ space w0 →
  wrapper = Mutating.SyncWrapped (Mutating.wrapped_self wrapper) func
  ∧ ∃ w', Mutating.call_repeatedly (Mutating.wrapped_self wrapper) func args kwargs 2 w0
          = ([Ok v; Ok v], w')
          ∧ files w' !! cache_file (Mutating.wrapped_self wrapper) func args kwargs
            = Some (File (encodebytes pickled))
          ∧ invocations w' = S (invocations w0).
Proof.
  unfold Mutating.partial_call, Mutating.cache, mbind, M_bind, mret, M_ret. simpl.
  destruct (__init__ _ _ _ _ _) as [[self|e] w1] eqn:Hinit; [|done].
  intros ? Hf Hbody Hkey Hv Hpd Hpl Hroom. simplify_eq. simpl in *.
  split; [done|].
  pose proof (init_cache_dir _ _ _ _ _ _ _ Hinit) as Hdir.
  pose proof (init_serializer _ _ _ _ _ _ _ Hinit) as Hser. simpl in Hser.
  assert (dumps (serializer self) v = Ok (encodebytes pickled)) as Hd.
  { rewrite Hser. simpl. unfold PickleSerializer_dumps. by rewrite Hpd. }
  assert (loads (serializer self) (encodebytes pickled) = Ok v) as Hl.
  { rewrite Hser. simpl. unfold PickleSerializer_loads.
    by rewrite decodebytes_encodebytes. }
  destruct (mutating_first_call_stores self func args kwargs w0 v (encodebytes pickled))
    as (wa & Hfirst & Hfa & Hia & _); [done..|].
  destruct (mutating_call_repeatedly_hits self func args kwargs (encodebytes pickled) v 1 wa)
    as (w' & Hrest & Hf' & _ & Hi'); [by rewrite Hfa, lookup_insert_eq|done|done|].
  exists w'. cbn [Mutating.call_repeatedly] in Hrest |- *.
  rewrite Hfirst.
  destruct (Mutating.sync_wrapper self func args kwargs wa) as [[v2|e2] wb];
    simpl in Hrest; simplify_eq.
  split_and!; [done| |congruence].
  by rewrite Hf', Hfa, lookup_insert_eq.
Qed.
End mutating_decorated.

(** ** The theorems at the sample programs *)

(** A function that appends to the list it is given stores its result
    under the key of the longer list: the second call with an empty list
    looks up the key of the empty list and calls the function again. A call
    with the list the first call left, for which the function would return
    2, gets the stored 1. *)
Example appending_function_called_twice :
  let first := Mutating.sync_wrapper (B:=sample_builtins_lists) sample_self_lists
                 sample_fn_append [PyList []] ∅ sample_world in
  let second := Mutating.sync_wrapper (B:=sample_builtins_lists) sample_self_lists
                  sample_fn_append [PyList []] ∅ first.2 in
  let third := Mutating.sync_wrapper (B:=sample_builtins_lists) sample_self_lists
                 sample_fn_append [PyList [PyInt 1]] ∅ second.2 in
  first.1 = Ok (PyInt 1) ∧ second.1 = Ok (PyInt 1) ∧ invocations second.2 = 2
  ∧ files second.2 !! ["cache"; "fn:[]"] = None
  ∧ files second.2 !! ["cache"; "fn:[1]"] = Some (File (encodebytes [x49; x01]))
  ∧ third.1 = Ok (PyInt 1) ∧ invocations third.2 = 2
  ∧ Mutating.returned (Mutating.fn_body sample_fn_append [PyList [PyInt 1]] ∅ 2)
    = Ok (PyInt 2).
Proof. vm_compute. done. Qed.

(** A generator that appends to the list it is given: the second iteration
    calls the generator function again. *)
Example appending_generator_called_twice :
  let first := take_items (Mutating.sync_gen_wrapper (B:=sample_builtins_lists)
                             sample_self_lists sample_gen_append) 2
                 (Created [PyList []] ∅) sample_world in
  let second := take_items (Mutating.sync_gen_wrapper (B:=sample_builtins_lists)
                              sample_self_lists sample_gen_append) 2
                  (Created [PyList []] ∅) first.2 in
  first.1.1 = ([PyInt 0], Some StopIteration)
  ∧ second.1.1 = ([PyInt 0], Some StopIteration)
  ∧ invocations second.2 = 2
  ∧ files second.2 !! ["cache"; "fn:[]"] = None.
Proof. vm_compute. done. Qed.

Lemma second_call_returns_stored_witness :
  ∃ w2,
    Mutating.sync_wrapper (B:=sample_builtins) sample_self (leaves_arguments sample_fn)
      [PyInt 3] ∅
      (Mutating.sync_wrapper (B:=sample_builtins) sample_self (leaves_arguments sample_fn)
         [PyInt 3] ∅ sample_world).2
    = (Ok (PyInt 4), w2)
    ∧ invocations w2
      = invocations
          (Mutating.sync_wrapper (B:=sample_builtins) sample_self
             (leaves_arguments sample_fn) [PyInt 3] ∅ sample_world).2
    ∧ invocations w2 ≤ S (invocations sample_world).
Proof.
  apply (second_call_returns_stored (B:=sample_builtins) sample_self
           (leaves_arguments sample_fn) [PyInt 3] ∅
           sample_world (PyInt 4) (encodebytes [x49; x04])).
  - vm_compute. reflexivity.
  - reflexivity.
  - discriminate.
  - reflexivity.
  - reflexivity.
  - reflexivity.
  - vm_compute. lia.
Defined.

(** C9 as stated fails: with an entry that does not decode, the lookup
    removes the entry before the function raises, so the files are not
    those before the call. *)
Lemma raising_function_loses_corrupted_entry :
  let run := Mutating.sync_wrapper (B:=sample_builtins) sample_self
               (leaves_arguments sample_fn_raise) [PyInt 3] ∅ sample_world_corrupted in
  (read (B:=sample_builtins) sample_self (leaves_arguments sample_fn_raise) [PyInt 3] ∅
     sample_world_corrupted).1 = Ok PyNone
  ∧ run.1 = Raise (Error "ValueError")
  ∧ ¬ (files run.2 = files sample_world_corrupted).
Proof.
  intros run. split_and!; [by vm_compute|by vm_compute|].
  intros Hsame.
  assert (files run.2 !! ["cache"; "fn:3"] = None) as Hgone by (vm_compute; reflexivity).
  rewrite Hsame in Hgone. vm_compute in Hgone. discriminate.
Qed.

Lemma raising_function_propagates_witness :
  let w1 := (read (B:=sample_builtins) sample_self (leaves_arguments sample_fn_raise)
               [PyInt 3] ∅ sample_world_corrupted).2 in
  let w2 := World (files w1) (space w1)
              (Mutating.user_after
                 (Mutating.fn_body (leaves_arguments sample_fn_raise) [PyInt 3] ∅ (user w1)))
              (events w1
               ++ [EvCall (Mutating.fn_name (leaves_arguments sample_fn_raise)) [PyInt 3] ∅]) in
  Mutating.sync_wrapper (B:=sample_builtins) sample_self (leaves_arguments sample_fn_raise)
    [PyInt 3] ∅ sample_world_corrupted
  = (Raise (Error "ValueError"), w2)
  ∧ Mutating.async_wrapper (B:=sample_builtins) sample_self (leaves_arguments sample_fn_raise)
      [PyInt 3] ∅ sample_world_corrupted
    = (Raise (Error "ValueError"), w2)
  ∧ invocations w2 = S (invocations sample_world_corrupted)
  ∧ files w2 = files w1
  ∧ ((∀ data exc,
        files sample_world_corrupted
          !! cache_file (B:=sample_builtins) sample_self
               (leaves_arguments sample_fn_raise) [PyInt 3] ∅ = Some (File data) →
        loads (serializer sample_self) data ≠ Raise exc) →
     files w2 = files sample_world_corrupted)
  ∧ (∀ data exc,
       files sample_world_corrupted
         !! cache_file (B:=sample_builtins) sample_self
              (leaves_arguments sample_fn_raise) [PyInt 3] ∅ = Some (File data) →
       loads (serializer sample_self) data = Raise exc →
       files w2
       = delete (cache_file (B:=sample_builtins) sample_self
                   (leaves_arguments sample_fn_raise) [PyInt 3] ∅)
           (files sample_world_corrupted)).
Proof.
  intros w1.
  apply (raising_function_propagates (B:=sample_builtins) sample_self
           (leaves_arguments sample_fn_raise) [PyInt 3] ∅ sample_world_corrupted
           w1 (Error "ValueError")).
  - vm_compute. reflexivity.
  - reflexivity.
Defined.



(** The write at the end of a full iteration. *)
Example full_iteration_stores_items :
  let run := take_items (Mutating.sync_gen_wrapper (B:=sample_builtins) sample_self
                           (gen_leaves_arguments sample_gen)) 4
               (Created [PyInt 3] ∅) sample_world in
  run.1.1 = ([PyInt 3; PyInt 4; PyInt 5], Some StopIteration)
  ∧ files run.2 !! ["cache"; "fn:3"] = Some (File (encodebytes [x4c; x03; x04; x05]))
  ∧ events run.2
    = [EvCall "fn" [PyInt 3] ∅; EvYield (PyInt 3); EvYield (PyInt 4); EvYield (PyInt 5);
       EvTruncate ["cache"; "fn:3"];
       EvWrite ["cache"; "fn:3"] (encodebytes [x4c; x03; x04; x05]);
       EvLog (InfoSaved "fn:3")].
Proof. vm_compute. done. Qed.

Lemma wrapper_touches_own_entries_witness :
  let run := Mutating.sync_wrapper (B:=sample_builtins_lists) sample_self_lists
               sample_fn_append [PyList []] ∅ sample_world in
  files run.2 !! ["cache"] = files sample_world !! ["cache"]
  ∧ Mutating.async_wrapper (B:=sample_builtins_lists) sample_self_lists
      sample_fn_append [PyList []] ∅ sample_world = (run.1, run.2).
Proof.
  intros run.
  apply (wrapper_touches_own_entries (B:=sample_builtins_lists) sample_self_lists
           sample_fn_append [PyList []] ∅ sample_world run.1 run.2 ["cache"]).
  - vm_compute. reflexivity.
  - vm_compute. discriminate.
  - vm_compute. discriminate.
Defined.

Lemma repeated_calls_call_once_witness :
  ∃ w',
    Mutating.call_repeatedly (B:=sample_builtins) sample_self (leaves_arguments sample_fn)
      [PyInt 3] ∅ 3 sample_world
    = (replicate 3 (Ok (PyInt 4)), w')
    ∧ invocations w' = S (invocations sample_world)
    ∧ user w'
      = Mutating.user_after
          (Mutating.fn_body (leaves_arguments sample_fn) [PyInt 3] ∅ (user sample_world)).
Proof.
  apply (repeated_calls_call_once (B:=sample_builtins) sample_self
           (leaves_arguments sample_fn) [PyInt 3] ∅
           sample_world (PyInt 4) (encodebytes [x49; x04]) 2).
  - reflexivity.
  - vm_compute. reflexivity.
  - reflexivity.
  - reflexivity.
  - discriminate.
  - reflexivity.
  - reflexivity.
  - vm_compute. lia.
Defined.




Lemma decorated_function_is_cached_witness :
  Mutating.SyncWrapped (U:=nat) (G:=Z * nat) sample_self (leaves_arguments sample_fn)
  = Mutating.SyncWrapped
      (Mutating.wrapped_self
         (Mutating.SyncWrapped (U:=nat) (G:=Z * nat) sample_self (leaves_arguments sample_fn)))
      (leaves_arguments sample_fn)
  ∧ ∃ w',
      Mutating.call_repeatedly (B:=sample_builtins)
        (Mutating.wrapped_self
           (Mutating.SyncWrapped (U:=nat) (G:=Z * nat) sample_self
              (leaves_arguments sample_fn)))
        (leaves_arguments sample_fn) [PyInt 3] ∅ 2 sample_world
      = ([Ok (PyInt 4); Ok (PyInt 4)], w')
      ∧ files w'
          !! cache_file (B:=sample_builtins)
               (Mutating.wrapped_self
                  (Mutating.SyncWrapped (U:=nat) (G:=Z * nat) sample_self
                     (leaves_arguments sample_fn)))
               (leaves_arguments sample_fn) [PyInt 3] ∅
        = Some (File (encodebytes [x49; x04]))
      ∧ invocations w' = S (invocations sample_world).
Proof.
  apply (decorated_function_is_cached (B:=sample_builtins) (U:=nat) (G:=Z * nat)
           "cache" None false (leaves_arguments sample_fn) [PyInt 3] ∅ sample_world
           (Mutating.SyncWrapped sample_self (leaves_arguments sample_fn)) sample_world
           (PyInt 4) [x49; x04]).
  - vm_compute. reflexivity.
  - vm_compute. reflexivity.
  - reflexivity.
  - reflexivity.
  - discriminate.
  - reflexivity.
  - reflexivity.
  - vm_compute. lia.
Defined.
